(** * gerar_dados_cnes: the CNES normalisation pipeline

    A shallow embedding of [scripts/gerar_dados_cnes.py]: the field
    resolver [campo], the classification tables, the two table-level
    filters and the row loop of [processar_df], followed by the
    properties of the pipeline.

    Modelling conventions.
    - Text.  A Python [str] is a [string]; the character functions
      ([str.strip], [str.isdigit], [str.upper], [str.title]) are those of
      Python on the ASCII range, and a character above 127 is carried
      through unchanged (neither white space, nor digit, nor cased).
    - Cells.  A cell of the frame is a [value]: a missing value (NaN or
      None, what [pd.notna] rejects), a string or an integer.
    - Rows.  A pandas Series is the list of its (label, value) pairs.  A
      label that occurs twice makes [row[c]] a sub-series, and the truth
      test of [campo] on it raises [ValueError].
    - Frames.  A DataFrame is the list of its column labels and the list
      of its rows; the frame operations are modelled for labels that are
      distinct after upper-casing and rows as long as the label list.
    - Clock and calendar.  [datetime.now()] is an argument; dates are
      those of the proleptic Gregorian calendar, days taken away one by
      one, with the ValueError and OverflowError of [datetime] as [None].
    - Retrieval.  The calls into pysus are parameters of [download_uf];
      each gives a value or raises, and [download_uf] catches whatever is
      raised.
    - Output.  The output directory is a map from file name to content;
      console output and failures of the file system are left out. *)

From Stdlib Require Import String Ascii List Bool Arith ZArith Lia.
From Stdlib Require Import Numbers.DecimalString.
Import ListNotations.
Local Open Scope string_scope.
Local Open Scope list_scope.
Local Open Scope nat_scope.

(** ** Characters and strings *)

Module PyStr.

Definition code (a : ascii) : nat := nat_of_ascii a.

(** [str.isspace] on ASCII: TAB, LF, VT, FF, CR, FS, GS, RS, US, space. *)
Definition isspace (a : ascii) : bool :=
  let n := code a in
  ((9 <=? n) && (n <=? 13)) || ((28 <=? n) && (n <=? 32)).

Definition isdigit (a : ascii) : bool :=
  let n := code a in (48 <=? n) && (n <=? 57).

Definition isupper (a : ascii) : bool :=
  let n := code a in (65 <=? n) && (n <=? 90).

Definition islower (a : ascii) : bool :=
  let n := code a in (97 <=? n) && (n <=? 122).

Definition iscased (a : ascii) : bool := isupper a || islower a.

Definition upper_char (a : ascii) : ascii :=
  if islower a then ascii_of_nat (code a - 32) else a.

Definition lower_char (a : ascii) : ascii :=
  if isupper a then ascii_of_nat (code a + 32) else a.

Fixpoint map_chars (f : ascii -> ascii) (s : string) : string :=
  match s with
  | EmptyString => EmptyString
  | String a s' => String (f a) (map_chars f s')
  end.

(** [s.upper()] *)
Definition upper (s : string) : string := map_chars upper_char s.

Fixpoint lstrip (s : string) : string :=
  match s with
  | EmptyString => EmptyString
  | String a s' => if isspace a then lstrip s' else s
  end.

Fixpoint rstrip (s : string) : string :=
  match s with
  | EmptyString => EmptyString
  | String a s' =>
      match rstrip s' with
      | EmptyString => if isspace a then EmptyString else String a EmptyString
      | r => String a r
      end
  end.

(** [s.strip()] *)
Definition strip (s : string) : string := rstrip (lstrip s).

Fixpoint zeros (n : nat) : string :=
  match n with
  | O => EmptyString
  | S n' => String "0" (zeros n')
  end.

Definition is_sign (a : ascii) : bool :=
  Ascii.eqb a "+" || Ascii.eqb a "-".

(** [s.zfill(width)]: zeros are put on the left, after a leading sign. *)
Definition zfill (width : nat) (s : string) : string :=
  let n := String.length s in
  if width <=? n then s
  else
    let fill := width - n in
    match s with
    | String c rest =>
        if is_sign c then String c (zeros fill ++ rest) else zeros fill ++ s
    | EmptyString => zeros fill
    end.

(** [s.title()]: a cased character is upper-cased when the character
    before it is not cased, and lower-cased otherwise. *)
Fixpoint title_from (previous_is_cased : bool) (s : string) : string :=
  match s with
  | EmptyString => EmptyString
  | String a s' =>
      String (if previous_is_cased then lower_char a else upper_char a)
             (title_from (iscased a) s')
  end.

Definition title (s : string) : string := title_from false s.

(** ["".join(c for c in s if c.isdigit())] *)
Fixpoint only_digits (s : string) : string :=
  match s with
  | EmptyString => EmptyString
  | String a s' =>
      if isdigit a then String a (only_digits s') else only_digits s'
  end.

Fixpoint all_chars (p : ascii -> bool) (s : string) : bool :=
  match s with
  | EmptyString => true
  | String a s' => p a && all_chars p s'
  end.

(** [bool(s)] *)
Definition truthy (s : string) : bool :=
  match s with EmptyString => false | _ => true end.

End PyStr.

(** ** Cells, rows and frames *)

Inductive value : Type :=
  | VNull
  | VStr (s : string)
  | VInt (z : Z).

(** [pd.notna(v)] *)
Definition notna (v : value) : bool :=
  match v with VNull => false | _ => true end.

(** [str(v)]; the text of a missing value is that of NaN. *)
Definition py_str (v : value) : string :=
  match v with
  | VNull => "nan"
  | VStr s => s
  | VInt z => NilZero.string_of_int (Z.to_int z)
  end.

Definition value_eqb (v w : value) : bool :=
  match v, w with
  | VNull, VNull => true
  | VStr s, VStr t => String.eqb s t
  | VInt a, VInt b => Z.eqb a b
  | _, _ => false
  end.

Definition Series : Type := list (string * value).

Definition index (row : Series) : list string := map fst row.

(** The values stored under label [c], in row order. *)
Definition loc (row : Series) (c : string) : list value :=
  map snd (filter (fun kv => String.eqb (fst kv) c) row).

Definition mem (c : string) (l : list string) : bool :=
  existsb (String.eqb c) l.

Fixpoint unique_labels (l : list string) : bool :=
  match l with
  | [] => true
  | c :: l' => negb (mem c l') && unique_labels l'
  end.

(** ** Exceptions *)

Inductive exn : Type :=
  | ValueError.

Inductive result (A : Type) : Type :=
  | Ok (a : A)
  | Raise (e : exn).
Arguments Ok {A} a.
Arguments Raise {A} e.

Definition bind {A B : Type} (m : result A) (k : A -> result B) : result B :=
  match m with
  | Ok a => k a
  | Raise e => Raise e
  end.

Notation "x <- m ;; k" := (bind m (fun x => k))
  (at level 61, m at next level, right associativity).

(** ** The field resolver *)

Definition is_null_text (s : string) : bool :=
  mem s [""; "nan"; "None"].

(** [campo(row, candidatos, default)] *)
Fixpoint campo (row : Series) (candidatos : list string) (default : string)
  : result string :=
  match candidatos with
  | [] => Ok default
  | c :: rest =>
      match loc row c with
      | [] => campo row rest default
      | [v] =>
          if notna v && negb (is_null_text (PyStr.strip (py_str v)))
          then Ok (PyStr.strip (py_str v))
          else campo row rest default
      | _ :: _ :: _ => Raise ValueError
      end
  end.

(** ** Classification tables *)

(** [d.get(k, default)] on a dict given by its items. *)
Fixpoint dict_get {V : Type} (d : list (string * V)) (k : string) (default : V) : V :=
  match d with
  | [] => default
  | (k', v) :: d' => if String.eqb k' k then v else dict_get d' k default
  end.

Definition GESTAO_SUS : list string := ["M"; "E"; "D"].

Definition TP_UNIDADE_MAP : list (string * (string * string)) :=
  [ ("01", ("primaria",   "Posto de Saúde"));
    ("02", ("primaria",   "Centro de Saúde / UBS"));
    ("04", ("secundaria", "Policlínica"));
    ("05", ("terciaria",  "Hospital Geral"));
    ("06", ("terciaria",  "Hospital Especializado"));
    ("07", ("terciaria",  "Hospital Dia"));
    ("08", ("secundaria", "Pronto-Socorro Geral"));
    ("15", ("secundaria", "Unidade Mista"));
    ("20", ("secundaria", "Pronto-Atendimento"));
    ("21", ("secundaria", "UPA 24h"));
    ("22", ("primaria",   "Consultório Isolado"));
    ("32", ("primaria",   "Clínica Especializada"));
    ("36", ("secundaria", "Clínica/Centro de Especialidade"));
    ("39", ("secundaria", "SADT / Diagnose e Terapia"));
    ("43", ("primaria",   "Farmácia"));
    ("50", ("primaria",   "Vigilância em Saúde"));
    ("61", ("terciaria",  "Centro de Parto Normal"));
    ("62", ("terciaria",  "Hospital Dia Isolado"));
    ("64", ("secundaria", "Central de Regulação"));
    ("65", ("secundaria", "Pronto-Atendimento Especializado"));
    ("67", ("primaria",   "Laboratório de Saúde Pública"));
    ("69", ("secundaria", "Hemocentro"));
    ("70", ("primaria",   "CAPS"));
    ("71", ("primaria",   "CASF"));
    ("72", ("primaria",   "Saúde Indígena"));
    ("73", ("secundaria", "Pronto-Socorro Geral"));
    ("74", ("secundaria", "Pronto-Socorro Especializado"));
    ("75", ("terciaria",  "Casa de Saúde"));
    ("76", ("secundaria", "CEREST"));
    ("77", ("primaria",   "Atenção Domiciliar"));
    ("78", ("primaria",   "Comunidade Terapêutica"));
    ("79", ("primaria",   "Oficina Ortopédica"));
    ("80", ("secundaria", "Laboratório de Saúde"));
    ("81", ("secundaria", "Centro de Saúde Escola"));
    ("82", ("secundaria", "Unidade Móvel de Urgência"));
    ("83", ("primaria",   "Academia da Saúde"));
    ("84", ("secundaria", "SAMU / Central de Regulação de Urgências"));
    ("85", ("primaria",   "SAD - Serviço de Atenção Domiciliar"));
    ("86", ("primaria",   "Unidade de Atenção Psicossocial")) ].

(** The dict literal of the governance labels in [processar_df]. *)
Definition GESTAO_ROTULO : list (string * string) :=
  [("M", "Municipal"); ("E", "Estadual"); ("D", "Municipal")].

(** ** Alias lists of [processar_df] *)

Definition COLS_GESTAO : list string := ["TP_GESTAO"; "TP_GESTAO_"; "TPGESTAO"].
Definition COLS_DESATIVACAO : list string :=
  ["DT_DESATIVACAO"; "DT_DESATIVACAO_"; "DTDESATIVACAO"].
Definition COLS_CNES : list string := ["CO_UNIDADE"; "CNES"; "CO_CNES"; "COUNIDADE"].
Definition COLS_FANTASIA : list string := ["NO_FANTASIA"; "NOFANTASIA"].
Definition COLS_RAZAO : list string :=
  ["NO_RAZAO_SOCIAL"; "NO_RAZAO_SOCIAL_"; "NORAZAOSOCIAL"].
Definition COLS_IBGE : list string :=
  ["CO_MUNICIPIO_GESTOR"; "CO_MUNICIPIO"; "CO_MUN_GESTOR"; "COMUNICIPIOGESTOR"].
Definition COLS_TP : list string := ["TP_UNIDADE"; "TP_UNIDADE_"; "TPUNIDADE"].
Definition COLS_LOGRADOURO : list string :=
  ["NO_LOGRADOURO"; "DS_LOGRADOURO"; "NOLOGRADOURO"].
Definition COLS_NUMERO : list string := ["NU_ENDERECO"; "DS_NUMERO"; "NUENDERECO"].
Definition COLS_BAIRRO : list string := ["DS_BAIRRO"; "NO_BAIRRO"; "DSBAIRRO"].
Definition COLS_CEP : list string := ["DS_CEP"; "NU_CEP"; "CO_CEP"; "DSCEP"].
Definition COLS_TEL : list string := ["NU_TELEFONE"; "DS_TELEFONE"; "NUTELEFONE"].

(** ** The output record *)

Record Registro : Type := mkRegistro {
  cnes : string;
  nome : string;
  nivel : string;
  perfil : string;
  gestao : string;
  ibge6 : string;
  logradouro : string;
  bairro : string;
  cep : string;
  tel : string
}.

(** [endereco] of the loop body, from the resolved street and number. *)
Definition endereco (logr numero : string) : string :=
  if PyStr.truthy numero
  then (if PyStr.truthy logr then logr ++ ", " ++ numero else numero)
  else logr.

(** The body of the loop over [df.iterrows()]: [Ok None] is [continue],
    [Ok (Some r)] is [registros.append(r)]. *)
Definition processar_linha (row : Series) : result (option Registro) :=
  cnes0 <- campo row COLS_CNES "" ;;
  if negb (PyStr.truthy cnes0) then Ok None else
  let cnes1 := PyStr.zfill 7 cnes0 in
  nome0 <- campo row COLS_FANTASIA "" ;;
  nome1 <- (if negb (PyStr.truthy nome0) then campo row COLS_RAZAO "" else Ok nome0) ;;
  if negb (PyStr.truthy nome1) then Ok None else
  let nome2 := PyStr.title nome1 in
  ibge0 <- campo row COLS_IBGE "" ;;
  let ibge1 := if PyStr.truthy ibge0 then PyStr.zfill 6 ibge0 else "" in
  tp0 <- campo row COLS_TP "02" ;;
  let tp1 := PyStr.zfill 2 tp0 in
  let '(nivel1, perfil1) :=
    dict_get TP_UNIDADE_MAP tp1 ("primaria", "Unidade de Saúde") in
  g <- campo row COLS_GESTAO "M" ;;
  let gestao1 := dict_get GESTAO_ROTULO g "Municipal" in
  logr <- campo row COLS_LOGRADOURO "" ;;
  numero <- campo row COLS_NUMERO "" ;;
  bairro1 <- campo row COLS_BAIRRO "" ;;
  cep0 <- campo row COLS_CEP "" ;;
  let cep1 := PyStr.only_digits cep0 in
  tel0 <- campo row COLS_TEL "" ;;
  let tel1 := PyStr.only_digits tel0 in
  Ok (Some {| cnes := cnes1; nome := nome2; nivel := nivel1; perfil := perfil1;
              gestao := gestao1; ibge6 := ibge1;
              logradouro := endereco logr numero; bairro := bairro1;
              cep := cep1; tel := tel1 |}).

(** The loop itself; an exception leaves the function. *)
Fixpoint processar_linhas (rows : list Series) (registros : list Registro)
  : result (list Registro) :=
  match rows with
  | [] => Ok registros
  | row :: rest =>
      o <- processar_linha row ;;
      match o with
      | None => processar_linhas rest registros
      | Some r => processar_linhas rest (registros ++ [r])
      end
  end.

(** ** Frames and the table-level filters *)

Record DataFrame : Type := mkDataFrame {
  columns : list string;
  linhas : list (list value)
}.

(** One row of the frame as a Series, as [df.iterrows()] hands it out. *)
Definition row_of (cols : list string) (cells : list value) : Series :=
  combine cols cells.

Definition iterrows (df : DataFrame) : list Series :=
  map (row_of (columns df)) (linhas df).

(** The cell of column [col] in one row: [df[col]] at that row. *)
Definition cell (cols : list string) (col : string) (cells : list value) : value :=
  match loc (row_of cols cells) col with
  | v :: _ => v
  | [] => VNull
  end.

(** [Series.isin(values)] at one cell, for a list of strings. *)
Definition isin (v : value) (values : list string) : bool :=
  match v with
  | VStr s => mem s values
  | _ => false
  end.

(** [Series.isna()] at one cell. *)
Definition isna (v : value) : bool := negb (notna v).

(** [df[mask]] for a mask computed row by row. *)
Definition select (df : DataFrame) (keep : list value -> bool) : DataFrame :=
  {| columns := columns df; linhas := filter keep (linhas df) |}.

(** [df.columns = [c.upper() for c in df.columns]] *)
Definition upper_columns (df : DataFrame) : DataFrame :=
  {| columns := map PyStr.upper (columns df); linhas := linhas df |}.

(** [next((c for c in [...] if c in df.columns), None)] *)
Definition col_gestao (df : DataFrame) : option string :=
  find (fun c => mem c (columns df)) COLS_GESTAO.

Definition sus (df : DataFrame) (c : string) (cells : list value) : bool :=
  isin (cell (columns df) c cells) GESTAO_SUS.

(** Filtro 1: vínculo SUS. *)
Definition filtro_sus (df : DataFrame) : DataFrame :=
  match col_gestao df with
  | Some c => if PyStr.truthy c then select df (sus df c) else df
  | None => df
  end.

Definition ativa (df : DataFrame) (col : string) (cells : list value) : bool :=
  let v := cell (columns df) col cells in
  isna v || isin v [""; "0"; "00000000"].

(** Filtro 2: unidades ativas; the loop stops at the first column found. *)
Fixpoint filtro_ativas_em (cols : list string) (df : DataFrame) : DataFrame :=
  match cols with
  | [] => df
  | col :: rest =>
      if mem col (columns df) then select df (ativa df col)
      else filtro_ativas_em rest df
  end.

Definition filtro_ativas (df : DataFrame) : DataFrame :=
  filtro_ativas_em COLS_DESATIVACAO df.

(** [processar_df(df, uf)] *)
Definition processar_df (df : DataFrame) (uf : string) : result (list Registro) :=
  let df := upper_columns df in
  let df := filtro_sus df in
  let df := filtro_ativas df in
  processar_linhas (iterrows df) [].

(** ** Dates *)

(** The calendar of [datetime]: dates of the proleptic Gregorian calendar,
    days taken away one at a time.  The time of day plays no part in the
    year and month that the script reads. *)
Module PyDate.

Record date : Type := mkDate { year : Z; month : nat; day : nat }.

Definition is_leap (y : Z) : bool :=
  (y mod 4 =? 0)%Z && (negb (y mod 100 =? 0)%Z || (y mod 400 =? 0)%Z).

Definition days_in_month (y : Z) (m : nat) : nat :=
  match m with
  | 2 => if is_leap y then 29 else 28
  | 4 | 6 | 9 | 11 => 30
  | _ => 31
  end.

Definition valid (d : date) : bool :=
  (1 <=? year d)%Z && (year d <=? 9999)%Z
  && (1 <=? month d) && (month d <=? 12)
  && (1 <=? day d) && (day d <=? days_in_month (year d) (month d)).

(** [datetime(y, m, d)]: [None] stands for ValueError. *)
Definition make (y : Z) (m d : nat) : option date :=
  if valid (mkDate y m d) then Some (mkDate y m d) else None.

Definition yesterday (d : date) : date :=
  if 1 <? day d then mkDate (year d) (month d) (day d - 1)
  else if 1 <? month d
       then mkDate (year d) (month d - 1) (days_in_month (year d) (month d - 1))
       else mkDate (year d - 1) 12 31.

Fixpoint days_before (n : nat) (d : date) : date :=
  match n with
  | O => d
  | S n' => days_before n' (yesterday d)
  end.

(** [d - timedelta(days=n)]: [None] stands for OverflowError, below year 1. *)
Definition sub_days (n : nat) (d : date) : option date :=
  let r := days_before n d in
  if (1 <=? year r)%Z then Some r else None.

End PyDate.

(** [get_competencia()], the clock [datetime.now()] being its argument. *)
Definition get_competencia (agora : PyDate.date) : option (Z * nat) :=
  match PyDate.sub_days 60 agora with
  | Some d => Some (PyDate.year d, PyDate.month d)
  | None => None
  end.

(** [prev = datetime(year, month, 1) - timedelta(days=1)] of [download_uf],
    read as [(prev.year, prev.month)]. *)
Definition competencia_anterior (year : Z) (month : nat) : option (Z * nat) :=
  match PyDate.make year month 1 with
  | Some d =>
      match PyDate.sub_days 1 d with
      | Some p => Some (PyDate.year p, PyDate.month p)
      | None => None
      end
  | None => None
  end.

(** ** Retrieval *)

(** The outcome of a call into pysus: a value, or some exception, which
    [download_uf] catches whatever it is. *)
Inductive attempt (A : Type) : Type :=
  | Got (a : A)
  | Threw.
Arguments Got {A} a.
Arguments Threw {A}.

Definition and_then {A B : Type} (m : attempt A) (k : A -> attempt B) : attempt B :=
  match m with
  | Got a => k a
  | Threw => Threw
  end.

Definition of_option {A : Type} (o : option A) : attempt A :=
  match o with
  | Some a => Got a
  | None => Threw
  end.

(** [df.empty] *)
Definition empty (df : DataFrame) : bool :=
  match columns df, linhas df with
  | [], _ => true
  | _, [] => true
  | _, _ => false
  end.

Section Retrieval.

(** pysus >= 0.4: the import and [CNES().load()], [db.get_files] for group
    ST, and [db.download] followed by [pd.read_parquet] when it hands back
    a path. *)
Variable File : Type.
Variable carregar_nova : attempt unit.
Variable get_files : string -> Z -> nat -> attempt (list File).
Variable download_novo : File -> attempt DataFrame.

(** pysus <= 0.3: the import and [download(uf, year, month, "ST")]. *)
Variable importar_antiga : attempt unit.
Variable download_antigo : string -> Z -> nat -> attempt (option DataFrame).

(** [_tentar(y, m)] *)
Definition tentar (uf : string) (y : Z) (m : nat) : attempt (option DataFrame) :=
  and_then (get_files uf y m) (fun files =>
  match files with
  | [] => Got None
  | f :: _ => and_then (download_novo f) (fun result => Got (Some result))
  end).

(** The first [try] block: [Got (Some df)] is [return df], [Got None] is
    leaving the block at its end, [Threw] is leaving it by an exception. *)
Definition tentativa_nova (uf : string) (year : Z) (month : nat)
  : attempt (option DataFrame) :=
  and_then carregar_nova (fun _ =>
  and_then (tentar uf year month) (fun df =>
  match df with
  | None =>
      and_then (of_option (competencia_anterior year month)) (fun prev =>
      tentar uf (fst prev) (snd prev))
  | Some _ => Got df
  end)).

(** [df is not None and not df.empty] *)
Definition usable (df : option DataFrame) : bool :=
  match df with
  | Some d => negb (empty d)
  | None => false
  end.

(** The second [try] block. *)
Definition tentativa_antiga (uf : string) (year : Z) (month : nat)
  : attempt (option DataFrame) :=
  and_then importar_antiga (fun _ =>
  and_then (download_antigo uf year month) (fun df =>
  if usable df then Got df
  else
    and_then (of_option (competencia_anterior year month)) (fun prev =>
    and_then (download_antigo uf (fst prev) (snd prev)) (fun df' =>
    if usable df' then Got df' else Got None)))).

(** [download_uf(uf, year, month)] *)
Definition download_uf (uf : string) (year : Z) (month : nat) : option DataFrame :=
  match tentativa_nova uf year month with
  | Got (Some df) => Some df
  | _ =>
      match tentativa_antiga uf year month with
      | Got (Some df) => Some df
      | _ => None
      end
  end.

End Retrieval.

(** ** The orchestrator *)

Definition UFS : list string :=
  [ "AC"; "AL"; "AM"; "AP"; "BA"; "CE"; "DF"; "ES"; "GO";
    "MA"; "MG"; "MS"; "MT"; "PA"; "PB"; "PE"; "PI"; "PR";
    "RJ"; "RN"; "RO"; "RR"; "RS"; "SC"; "SE"; "SP"; "TO" ].

(** [d[k] = v] on a dict given by its items, in insertion order. *)
Fixpoint dict_set {V : Type} (d : list (string * V)) (k : string) (v : V)
  : list (string * V) :=
  match d with
  | [] => [(k, v)]
  | (k', v') :: d' =>
      if String.eqb k' k then (k', v) :: d' else (k', v') :: dict_set d' k v
  end.

(** [sum(d.values())] *)
Definition soma (d : list (string * nat)) : nat :=
  fold_left Nat.add (map snd d) 0.

(** The dict written to [_meta.json]. *)
Record Meta : Type := mkMeta {
  gerado_em : string;
  competencia : string;
  totais : list (string * nat);
  total_geral : nat;
  meta_falhas : list string
}.

(** What a file of the output directory holds. *)
Inductive Arquivo : Type :=
  | ArqRegistros (registros : list Registro)
  | ArqMeta (m : Meta).

(** The output directory: file name to content. *)
Definition Dir : Type := string -> option Arquivo.

(** [open(name, "w")] and [json.dump]: the file is created or replaced. *)
Definition escrever (dir : Dir) (name : string) (a : Arquivo) : Dir :=
  fun n => if String.eqb n name then Some a else dir n.

Record Estado : Type := mkEstado {
  dir : Dir;
  resumo : list (string * nat);
  falhas : list string
}.

(** How [main] ends: both files written, an exception of [processar_df]
    that nothing catches, or OverflowError from [get_competencia]. *)
Inductive Saida : Type :=
  | Concluido (d : Dir) (m : Meta)
  | Interrompido (d : Dir) (e : exn)
  | SemCompetencia.

(** [f"{year}-{month:02d}"] *)
Definition competencia_texto (year : Z) (month : nat) : string :=
  py_str (VInt year) ++ "-" ++ PyStr.zfill 2 (py_str (VInt (Z.of_nat month))).

Section Main.

Variable baixar : string -> Z -> nat -> option DataFrame.

(** The loop of [main] over the regions; [Some e] is the exception that
    left it. *)
Fixpoint main_loop (year : Z) (month : nat) (ufs : list string) (st : Estado)
  : Estado * option exn :=
  match ufs with
  | [] => (st, None)
  | uf :: rest =>
      match baixar uf year month with
      | None =>
          main_loop year month rest
            {| dir := dir st;
               resumo := dict_set (resumo st) uf 0;
               falhas := falhas st ++ [uf] |}
      | Some df =>
          match processar_df df uf with
          | Raise e => (st, Some e)
          | Ok registros =>
              main_loop year month rest
                {| dir := escrever (dir st) (uf ++ ".json") (ArqRegistros registros);
                   resumo := dict_set (resumo st) uf (length registros);
                   falhas := falhas st |}
          end
      end
  end.

(** [main()], given the clock, the text of the second clock reading and
    the output directory as it is found. *)
Definition main (agora : PyDate.date) (carimbo : string) (dir0 : Dir) : Saida :=
  match get_competencia agora with
  | None => SemCompetencia
  | Some (year, month) =>
      match main_loop year month UFS
              {| dir := dir0; resumo := []; falhas := [] |} with
      | (st, Some e) => Interrompido (dir st) e
      | (st, None) =>
          let meta :=
            {| gerado_em := carimbo;
               competencia := competencia_texto year month;
               totais := resumo st;
               total_geral := soma (resumo st);
               meta_falhas := falhas st |} in
          Concluido (escrever (dir st) "_meta.json" (ArqMeta meta)) meta
      end
  end.

End Main.

(** ** Vocabulary of the properties *)

(** A string without white space at either end: what [strip] leaves. *)
Definition first_ok (s : string) : bool :=
  match s with
  | EmptyString => true
  | String a _ => negb (PyStr.isspace a)
  end.

Fixpoint last_ok (s : string) : bool :=
  match s with
  | EmptyString => true
  | String a EmptyString => negb (PyStr.isspace a)
  | String _ s' => last_ok s'
  end.

Definition trimmed (s : string) : bool := first_ok s && last_ok s.

(** A text that [campo] hands back from a cell: trimmed and none of the
    null texts. *)
Definition clean (s : string) : Prop :=
  trimmed s = true /\ is_null_text s = false.

(** Candidate [c] qualifies in [row] with text [s]: the row holds a value
    under [c] that is not missing and whose trimmed text [s] is none of the
    null texts. *)
Definition qualifies (row : Series) (c : string) (s : string) : Prop :=
  exists v, In (c, v) row /\ notna v = true /\
            s = PyStr.strip (py_str v) /\ is_null_text s = false.

Definition NIVEIS : list string := ["primaria"; "secundaria"; "terciaria"].
Definition GESTOES : list string := ["Municipal"; "Estadual"].

(** The invariant of the data model as worded: widths exactly 7 and 6. *)
Definition registro_conforme (r : Registro) : bool :=
  (String.length (cnes r) =? 7)
  && (negb (PyStr.truthy (ibge6 r)) || (String.length (ibge6 r) =? 6))
  && mem (nivel r) NIVEIS && mem (gestao r) GESTOES
  && PyStr.all_chars PyStr.isdigit (cep r)
  && PyStr.all_chars PyStr.isdigit (tel r).


(** A frame inside the model: labels distinct and every row as long as
    the label list.  It is asked of the frame once its labels are
    upper-cased. *)
Definition frame_ok (df : DataFrame) : bool :=
  unique_labels (columns df)
  && forallb (fun cells => length cells =? length (columns df)) (linhas df).

(** The first alias, in list order, that is a column of the frame. *)
Definition primeira_coluna (aliases : list string) (df : DataFrame) : option string :=
  find (fun c => mem c (columns df)) aliases.

(** The row holds an affiliated governance code under [c]. *)
Definition vinculada (row : Series) (c : string) : Prop :=
  exists s, In (c, VStr s) row /\ In s ["M"; "E"; "D"].

(** The row holds no deactivation under [c]: a missing value or one of the
    three markers. *)
Definition sem_desativacao (row : Series) (c : string) : Prop :=
  In (c, VNull) row \/ exists s, In (c, VStr s) row /\ In s [""; "0"; "00000000"].

(** The record built from the ten resolved texts of a row. *)
Definition registro_de (c n i tp g l nu b ce te : string) : Registro :=
  let e := dict_get TP_UNIDADE_MAP (PyStr.zfill 2 tp) ("primaria", "Unidade de Saúde") in
  {| cnes := PyStr.zfill 7 c;
     nome := PyStr.title n;
     nivel := fst e;
     perfil := snd e;
     gestao := dict_get GESTAO_ROTULO g "Municipal";
     ibge6 := if PyStr.truthy i then PyStr.zfill 6 i else "";
     logradouro := endereco l nu;
     bairro := b;
     cep := PyStr.only_digits ce;
     tel := PyStr.only_digits te |}.

(** The display name before title-casing: commercial name, else legal name. *)
Definition nome_de (row : Series) : result string :=
  n0 <- campo row COLS_FANTASIA "" ;;
  if negb (PyStr.truthy n0) then campo row COLS_RAZAO "" else Ok n0.

(** The records of a list of loop outcomes, skipped rows left out. *)
Definition emitidos (os : list (option Registro)) : list Registro :=
  flat_map (fun o => match o with Some r => [r] | None => [] end) os.

(** *** Dates relative to a year

    A date as an offset from a year [y] whose leap status is known, for
    checking by computation what [days_before] does around [y]: the
    length of February is known in the year [y] only. *)

Definition rel : Type := (Z * nat * nat)%type.

Definition dim_rel (leap : bool) (k : Z) (m : nat) : option nat :=
  match m with
  | 2 => if (k =? 0)%Z then Some (if leap then 29 else 28) else None
  | 4 | 6 | 9 | 11 => Some 30
  | _ => Some 31
  end.

Definition yesterday_rel (leap : bool) (st : rel) : option rel :=
  let '(k, m, d) := st in
  if 1 <? d then Some (k, m, d - 1)
  else if 1 <? m
       then match dim_rel leap k (m - 1) with
            | Some l => Some (k, m - 1, l)
            | None => None
            end
       else Some ((k - 1)%Z, 12, 31).

Fixpoint days_before_rel (leap : bool) (n : nat) (st : rel) : option rel :=
  match n with
  | O => Some st
  | S n' =>
      match yesterday_rel leap st with
      | Some st' => days_before_rel leap n' st'
      | None => None
      end
  end.

Definition embed (y : Z) (st : rel) : PyDate.date :=
  let '(k, m, d) := st in PyDate.mkDate (y + k) m d.

(** The lag in months of the date sixty days before day [d] of month [m],
    checked: between 1 and 3, and 3 only on the first of March or April of
    a year that is not leap. *)
Definition lag_ok (leap : bool) (m d : nat) : bool :=
  match days_before_rel leap 60 (0%Z, m, d) with
  | Some (k', m', _) =>
      let lag := (12 * (- k') + Z.of_nat m - Z.of_nat m')%Z in
      (1 <=? m') && (m' <=? 12) && (-1 <=? k')%Z
      && (1 <=? lag)%Z && (lag <=? 3)%Z
      && Bool.eqb (lag =? 3)%Z (negb leap && (d =? 1) && ((m =? 3) || (m =? 4)))
  | None => false
  end.

(** The number of records that [main] notes for a region: those of its
    frame, and 0 when there is no frame. *)
Definition contagem (baixar : string -> Z -> nat -> option DataFrame)
    (year : Z) (month : nat) (uf : string) : nat :=
  match baixar uf year month with
  | None => 0
  | Some df =>
      match processar_df df uf with
      | Ok registros => length registros
      | Raise _ => 0
      end
  end.

(** The region has no frame. *)
Definition sem_dados (baixar : string -> Z -> nat -> option DataFrame)
    (year : Z) (month : nat) (uf : string) : bool :=
  match baixar uf year month with
  | None => true
  | Some _ => false
  end.

(** *** Sample inputs for the concrete runs *)

Definition quadro_exemplo : DataFrame :=
  mkDataFrame ["cnes"; "no_fantasia"] [[VStr "1"; VStr "UBS A"]; [VNull; VStr "UBS B"]].

(** Two labels that differ by case only. *)
Definition quadro_repetido : DataFrame :=
  mkDataFrame ["cnes"; "CNES"; "no_fantasia"] [[VStr "1"; VStr "1"; VStr "UBS A"]].

Definition baixar_exemplo (uf : string) (year : Z) (month : nat) : option DataFrame :=
  if String.eqb uf "RJ" then Some quadro_exemplo else None.

Definition baixar_repetido (uf : string) (year : Z) (month : nat) : option DataFrame :=
  if String.eqb uf "RJ" then Some quadro_exemplo
  else if String.eqb uf "SP" then Some quadro_repetido
  else None.

Definition dir_vazio : Dir := fun _ => None.

(** *** ASCII text

    The text on which the character functions above are those of Python:
    every character below 128. *)




(** * Properties *)

(** ** Concrete runs *)

Example campo_first_usable :
  campo [("A", VStr " "); ("B", VStr " x "); ("C", VStr "y")] ["A"; "B"; "C"] ""
  = Ok "x".
Proof. reflexivity. Qed.

Example py_str_int : py_str (VInt (-12)) = "-12" /\ py_str (VInt 0) = "0".
Proof. split; reflexivity. Qed.

Example zfill_sign : PyStr.zfill 5 "-12" = "-0012" /\ PyStr.zfill 7 "123" = "0000123".
Proof. split; reflexivity. Qed.

Example only_digits_cep_tel :
  PyStr.only_digits "01310-100" = "01310100"
  /\ PyStr.only_digits "(11) 4002-8922" = "1140028922".
Proof. split; reflexivity. Qed.

Example endereco_cases :
  endereco "Av. Brasil" "100" = "Av. Brasil, 100"
  /\ endereco "" "100" = "100"
  /\ endereco "Av. Brasil" "" = "Av. Brasil"
  /\ endereco "" "" = "".
Proof. repeat split; reflexivity. Qed.

Example filtro_sus_M_S_E :
  linhas (filtro_sus (upper_columns
            {| columns := ["cnes"; "tp_gestao"];
               linhas := [[VStr "1"; VStr "M"]; [VStr "2"; VStr "S"];
                          [VStr "3"; VStr "E"]] |}))
  = [[VStr "1"; VStr "M"]; [VStr "3"; VStr "E"]].
Proof. reflexivity. Qed.

Example filtro_ativas_first_alias_only :
  linhas (filtro_ativas
            {| columns := ["CNES"; "DTDESATIVACAO"; "DT_DESATIVACAO"];
               linhas := [[VStr "1"; VStr "20200101"; VStr "00000000"];
                          [VStr "2"; VNull; VStr "20190501"];
                          [VStr "3"; VStr "0"; VNull]] |})
  = [[VStr "1"; VStr "20200101"; VStr "00000000"]; [VStr "3"; VStr "0"; VNull]].
Proof. reflexivity. Qed.

Example processar_df_run :
  processar_df
    {| columns := ["cnes"; "no_fantasia"; "no_razao_social"; "tp_unidade";
                   "tp_gestao"; "dt_desativacao"; "nu_cep"];
       linhas :=
         [ [VStr "12345"; VNull; VStr "HOSPITAL GERAL DO ESTADO"; VStr "5";
            VStr "E"; VNull; VStr "20.000-000"];
           [VStr "777"; VStr "CLINICA PRIVADA"; VNull; VStr "36";
            VStr "S"; VNull; VNull];
           [VNull; VStr "SEM CODIGO"; VNull; VStr "02";
            VStr "M"; VStr ""; VNull];
           [VStr "888"; VStr "UPA FECHADA"; VNull; VStr "21";
            VStr "M"; VStr "20190501"; VNull] ] |} "RJ"
  = Ok [ {| cnes := "0012345"; nome := "Hospital Geral Do Estado";
            nivel := "terciaria"; perfil := "Hospital Geral";
            gestao := "Estadual"; ibge6 := ""; logradouro := ""; bairro := "";
            cep := "20000000"; tel := "" |} ].
Proof. reflexivity. Qed.

Example campo_raises_on_repeated_label :
  campo [("CNES", VStr "1"); ("CNES", VStr "2")] ["CNES"] "" = Raise ValueError.
Proof. reflexivity. Qed.

Example title_words : PyStr.title "HOSPITAL geral d'oeste" = "Hospital Geral D'Oeste".
Proof. reflexivity. Qed.

(** ** Characters *)

Ltac each_char a :=
  destruct a as [[|] [|] [|] [|] [|] [|] [|] [|]]; vm_compute; try reflexivity.


Lemma is_sign_not_space (a : ascii) :
  PyStr.is_sign a = true -> PyStr.isspace a = false.
Proof. each_char a; discriminate. Qed.

Lemma title_char_space (b : bool) (a : ascii) :
  PyStr.isspace (if b then PyStr.lower_char a else PyStr.upper_char a)
  = PyStr.isspace a.
Proof. destruct b; each_char a. Qed.

Lemma title_char_cased (b : bool) (a : ascii) :
  PyStr.iscased (if b then PyStr.lower_char a else PyStr.upper_char a)
  = PyStr.iscased a.
Proof. destruct b; each_char a. Qed.

Lemma title_char_idem (b : bool) (a : ascii) :
  let x := if b then PyStr.lower_char a else PyStr.upper_char a in
  (if b then PyStr.lower_char x else PyStr.upper_char x) = x.
Proof. destruct b; each_char a. Qed.


(** ** Strings *)

Lemma lstrip_first_ok (s : string) : first_ok (PyStr.lstrip s) = true.
Proof.
  induction s as [|a s IH]; simpl; [reflexivity|].
  destruct (PyStr.isspace a) eqn:E; [exact IH|].
  simpl. now rewrite E.
Qed.

Lemma rstrip_last_ok (s : string) : last_ok (PyStr.rstrip s) = true.
Proof.
  induction s as [|a s IH]; simpl; [reflexivity|].
  destruct (PyStr.rstrip s) as [|b r] eqn:E.
  - destruct (PyStr.isspace a) eqn:Ea; simpl; [reflexivity|now rewrite Ea].
  - exact IH.
Qed.

Lemma rstrip_first_ok (s : string) :
  first_ok s = true -> first_ok (PyStr.rstrip s) = true.
Proof.
  destruct s as [|a s]; simpl; [reflexivity|].
  intros H. apply negb_true_iff in H. rewrite H.
  destruct (PyStr.rstrip s); simpl; now rewrite H.
Qed.

Lemma strip_trimmed (s : string) : trimmed (PyStr.strip s) = true.
Proof.
  unfold trimmed, PyStr.strip.
  rewrite rstrip_first_ok by apply lstrip_first_ok.
  now rewrite rstrip_last_ok.
Qed.

Lemma lstrip_id (s : string) : first_ok s = true -> PyStr.lstrip s = s.
Proof.
  destruct s as [|a s]; simpl; [reflexivity|].
  now destruct (PyStr.isspace a).
Qed.

Lemma rstrip_id (s : string) : last_ok s = true -> PyStr.rstrip s = s.
Proof.
  induction s as [|a s IH]; [reflexivity|].
  intros H. cbn [PyStr.rstrip].
  destruct s as [|b s'].
  - simpl in *. now destruct (PyStr.isspace a).
  - rewrite IH by exact H. reflexivity.
Qed.

Lemma trimmed_strip (s : string) : trimmed s = true -> PyStr.strip s = s.
Proof.
  unfold trimmed, PyStr.strip. intros H.
  apply andb_true_iff in H as [H1 H2].
  rewrite lstrip_id by exact H1. now apply rstrip_id.
Qed.

Lemma last_ok_cons (a : ascii) (s : string) :
  s <> "" -> last_ok (String a s) = last_ok s.
Proof. destruct s; [congruence|reflexivity]. Qed.

Lemma last_ok_app (s t : string) : t <> "" -> last_ok (s ++ t) = last_ok t.
Proof.
  intros Ht. induction s as [|a s IH]; [reflexivity|].
  simpl append. rewrite last_ok_cons; [exact IH|].
  destruct s; simpl; [exact Ht|discriminate].
Qed.

Lemma is_null_text_true (s : string) :
  is_null_text s = true -> s = "" \/ s = "nan" \/ s = "None".
Proof.
  unfold is_null_text, mem. simpl. rewrite orb_false_r.
  intros H. apply orb_true_iff in H as [H|H]; [|apply orb_true_iff in H as [H|H]];
    apply String.eqb_eq in H; auto.
Qed.


Lemma truthy_false (s : string) : PyStr.truthy s = false <-> s = "".
Proof. destruct s; simpl; split; congruence. Qed.

Lemma truthy_true (s : string) : PyStr.truthy s = true <-> s <> "".
Proof. destruct s; simpl; split; congruence. Qed.

Lemma clean_truthy (s : string) : clean s -> PyStr.truthy s = true.
Proof. intros [_ H]. now destruct s. Qed.

(** ** Rows and the resolver *)

Lemma mem_In (c : string) (l : list string) : mem c l = true <-> In c l.
Proof.
  unfold mem. rewrite existsb_exists. split.
  - intros [x [Hx E]]. apply String.eqb_eq in E. now subst.
  - intros H. exists c. split; [exact H|apply String.eqb_refl].
Qed.

Lemma mem_false (c : string) (l : list string) : mem c l = false <-> ~ In c l.
Proof.
  rewrite <- mem_In. destruct (mem c l); split; congruence.
Qed.

Lemma loc_In (row : Series) (c : string) (v : value) :
  In (c, v) row <-> In v (loc row c).
Proof.
  unfold loc. rewrite in_map_iff. split.
  - intros H. exists (c, v). split; [reflexivity|].
    apply filter_In. split; [exact H|apply String.eqb_refl].
  - intros [[k w] [E H]]. apply filter_In in H as [H K].
    simpl in *. apply String.eqb_eq in K. now subst.
Qed.

Lemma loc_absent (row : Series) (c : string) :
  mem c (index row) = false -> loc row c = [].
Proof.
  intros H. destruct (loc row c) as [|v l] eqn:E; [reflexivity|].
  exfalso. apply mem_false in H. apply H.
  assert (K : In (c, v) row) by (apply loc_In; rewrite E; now left).
  unfold index. now apply (in_map fst) in K.
Qed.

Lemma loc_cons (k : string) (v : value) (row : Series) (c : string) :
  loc ((k, v) :: row) c = if String.eqb k c then v :: loc row c else loc row c.
Proof. unfold loc. simpl. now destruct (String.eqb k c). Qed.

Lemma loc_unique (row : Series) (c : string) :
  unique_labels (index row) = true -> length (loc row c) <= 1.
Proof.
  induction row as [|[k v] row IH]; simpl; [lia|].
  intros H. apply andb_true_iff in H as [H1 H2].
  rewrite loc_cons.
  destruct (String.eqb k c) eqn:E.
  - apply String.eqb_eq in E. subst k.
    apply negb_true_iff in H1. apply loc_absent in H1.
    rewrite H1. simpl. lia.
  - now apply IH.
Qed.

Lemma campo_hit (row : Series) (c : string) (rest : list string) (d : string)
    (v : value) :
  loc row c = [v] -> notna v = true ->
  is_null_text (PyStr.strip (py_str v)) = false ->
  campo row (c :: rest) d = Ok (PyStr.strip (py_str v)).
Proof. intros L N T. simpl. now rewrite L, N, T. Qed.

Lemma campo_hit_clean (row : Series) (c : string) (rest : list string)
    (d s : string) :
  loc row c = [VStr s] -> clean s -> campo row (c :: rest) d = Ok s.
Proof.
  intros L [T N]. pose proof (trimmed_strip s T) as E.
  rewrite (campo_hit row c rest d (VStr s) L); simpl; rewrite ?E; auto.
Qed.

Lemma campo_absent (row : Series) (c : string) (rest : list string) (d : string) :
  loc row c = [] -> campo row (c :: rest) d = campo row rest d.
Proof. intros L. simpl. now rewrite L. Qed.


Lemma qualifies_clean (row : Series) (c s : string) : qualifies row c s -> clean s.
Proof.
  intros [v [_ [_ [-> N]]]]. split; [apply strip_trimmed|exact N].
Qed.

Lemma campo_result (row : Series) (cands : list string) (d s : string) :
  campo row cands d = Ok s ->
  s = d \/ exists c, In c cands /\ qualifies row c s.
Proof.
  induction cands as [|c rest IH]; simpl.
  - intros H. left. congruence.
  - destruct (loc row c) as [|v [|w l]] eqn:L; try discriminate.
    + intros H. destruct (IH H) as [->|[c' [I Q]]]; [now left|].
      right. exists c'. auto.
    + destruct (notna v) eqn:N; simpl.
      * destruct (is_null_text (PyStr.strip (py_str v))) eqn:T; simpl.
        -- intros H. destruct (IH H) as [->|[c' [I Q]]]; [now left|].
           right. exists c'. auto.
        -- intros H. injection H as <-. right. exists c. split; [now left|].
           exists v. repeat split; auto.
           apply loc_In. rewrite L. now left.
      * intros H. destruct (IH H) as [->|[c' [I Q]]]; [now left|].
        right. exists c'. auto.
Qed.

Lemma campo_result_clean (row : Series) (cands : list string) (s : string) :
  campo row cands "" = Ok s -> s = "" \/ clean s.
Proof.
  intros H. apply campo_result in H as [->|[c [_ Q]]]; [now left|right].
  eapply qualifies_clean; eassumption.
Qed.

(** *** Rows with distinct labels *)

Section DistinctLabels.

Variable row : Series.
Hypothesis distinct : unique_labels (index row) = true.

Lemma loc_the (c : string) (v : value) : In (c, v) row -> loc row c = [v].
Proof.
  intros H. apply loc_In in H. pose proof (loc_unique row c distinct) as L.
  destruct (loc row c) as [|w [|w' l]]; simpl in *; try lia; try tauto.
  destruct H as [->|[]]. reflexivity.
Qed.

Lemma campo_total (cands : list string) (d : string) :
  exists s, campo row cands d = Ok s.
Proof.
  induction cands as [|c rest IH]; simpl; [now exists d|].
  pose proof (loc_unique row c distinct) as L.
  destruct (loc row c) as [|v [|w l]]; simpl in L; try lia; [exact IH|].
  destruct (notna v && negb (is_null_text (PyStr.strip (py_str v))));
    [eexists; reflexivity|exact IH].
Qed.

Lemma campo_skips (c : string) (rest : list string) (d : string) :
  (forall s, ~ qualifies row c s) ->
  campo row (c :: rest) d = campo row rest d.
Proof.
  intros Q. simpl. pose proof (loc_unique row c distinct) as L.
  destruct (loc row c) as [|v [|w l]] eqn:E; simpl in L; try lia;
    [reflexivity|].
  destruct (notna v) eqn:N; [|reflexivity].
  destruct (is_null_text (PyStr.strip (py_str v))) eqn:T; [reflexivity|].
  exfalso. apply (Q (PyStr.strip (py_str v))). exists v. repeat split; auto.
  apply loc_In. rewrite E. now left.
Qed.

Lemma campo_none_qualifies (cands : list string) (d : string) :
  (forall c s, In c cands -> ~ qualifies row c s) ->
  campo row cands d = Ok d.
Proof.
  induction cands as [|c rest IH]; intros Q; [reflexivity|].
  rewrite campo_skips.
  - apply IH. intros c' s I. apply Q. now right.
  - intros s. apply Q. now left.
Qed.

Lemma campo_first (pre : list string) (c : string) (post : list string)
    (d s : string) :
  (forall c' s', In c' pre -> ~ qualifies row c' s') ->
  qualifies row c s ->
  campo row (pre ++ c :: post) d = Ok s.
Proof.
  induction pre as [|p pre IH]; intros Q H.
  - simpl app. destruct H as [v [I [N [-> T]]]].
    apply campo_hit; auto. now apply loc_the.
  - simpl app. rewrite campo_skips.
    + apply IH; auto. intros c' s' I. apply Q. now right.
    + intros s'. apply Q. now left.
Qed.

End DistinctLabels.

(** C2.  On a row with distinct labels, [campo] returns the trimmed text
    of the first candidate, in list order, that the row holds with a value
    that is not missing and whose trimmed text is none of the null texts
    (empty, nan, None); it returns the default when no candidate qualifies.
    With candidates A, B, C, A empty or missing and B holding x, the result
    is x whatever C holds. *)
Theorem campo_first_qualifying (row : Series) (d : string) :
  unique_labels (index row) = true ->
  (forall pre c post s,
      (forall c' s', In c' pre -> ~ qualifies row c' s') ->
      qualifies row c s ->
      campo row (pre ++ c :: post) d = Ok s)
  /\ (forall cands,
      (forall c s, In c cands -> ~ qualifies row c s) ->
      campo row cands d = Ok d)
  /\ (forall A B C,
      (forall v, In (A, v) row -> v = VNull \/ v = VStr "") ->
      In (B, VStr "x") row ->
      campo row [A; B; C] d = Ok "x").
Proof.
  intros U. split; [|split].
  - intros pre c post s Q H. now apply campo_first.
  - intros cands Q. now apply campo_none_qualifies.
  - intros A B C HA HB.
    apply (campo_first row U [A] B [C] d "x").
    + intros c' s' [<-|[]] [v [I [N [E T]]]].
      destruct (HA v I) as [->| ->]; [discriminate|].
      subst s'. discriminate.
    + exists (VStr "x"). repeat split; auto.
Qed.

Lemma campo_first_qualifying_witness :
  unique_labels (index [("A", VStr ""); ("B", VStr "x"); ("C", VStr "y")]) = true
  /\ campo [("A", VStr ""); ("B", VStr "x"); ("C", VStr "y")] ["A"; "B"; "C"] ""
     = Ok "x"
  /\ campo [("A", VStr ""); ("B", VStr "x"); ("C", VStr "y")] (["A"] ++ "C" :: []) ""
     = Ok "y".
Proof.
  split; [reflexivity|].
  destruct (campo_first_qualifying
              [("A", VStr ""); ("B", VStr "x"); ("C", VStr "y")] ""
              eq_refl) as [H1 [_ H3]].
  split.
  - apply H3.
    + intros v [E|[E|[E|[]]]]; inversion E. now right.
    + simpl. auto.
  - apply H1.
    + intros c' s' [<-|[]] [v [[E|[E|[E|[]]]] [_ [-> T]]]]; inversion E.
      subst v. discriminate.
    + exists (VStr "y"). repeat split. simpl. auto.
Defined.

(** ** One row *)

Lemma processar_linha_emit (row : Series) (c n i tp g l nu b ce te : string) :
  campo row COLS_CNES "" = Ok c -> c <> "" ->
  nome_de row = Ok n -> n <> "" ->
  campo row COLS_IBGE "" = Ok i ->
  campo row COLS_TP "02" = Ok tp ->
  campo row COLS_GESTAO "M" = Ok g ->
  campo row COLS_LOGRADOURO "" = Ok l ->
  campo row COLS_NUMERO "" = Ok nu ->
  campo row COLS_BAIRRO "" = Ok b ->
  campo row COLS_CEP "" = Ok ce ->
  campo row COLS_TEL "" = Ok te ->
  processar_linha row = Ok (Some (registro_de c n i tp g l nu b ce te)).
Proof.
  intros Hc Nc Hn Nn Hi Htp Hg Hl Hnu Hb Hce Hte.
  unfold processar_linha, registro_de.
  apply truthy_true in Nc, Nn.
  rewrite Hc. cbn [bind]. rewrite Nc. cbn [negb].
  unfold nome_de in Hn.
  destruct (campo row COLS_FANTASIA "") as [n0|] eqn:Hf; [|discriminate].
  cbn [bind] in Hn |- *. rewrite Hn. cbn [bind]. rewrite Nn. cbn [negb].
  rewrite Hi, Htp. cbn [bind].
  cbv zeta.
  match goal with
  | |- context [dict_get TP_UNIDADE_MAP ?k ?d] =>
      destruct (dict_get TP_UNIDADE_MAP k d) as [nv pf]
  end.
  rewrite Hg, Hl, Hnu, Hb, Hce, Hte. reflexivity.
Qed.

Lemma processar_linha_some (row : Series) (r : Registro) :
  processar_linha row = Ok (Some r) ->
  exists c n i tp g l nu b ce te,
    campo row COLS_CNES "" = Ok c /\ c <> "" /\
    nome_de row = Ok n /\ n <> "" /\
    campo row COLS_IBGE "" = Ok i /\
    campo row COLS_TP "02" = Ok tp /\
    campo row COLS_GESTAO "M" = Ok g /\
    campo row COLS_LOGRADOURO "" = Ok l /\
    campo row COLS_NUMERO "" = Ok nu /\
    campo row COLS_BAIRRO "" = Ok b /\
    campo row COLS_CEP "" = Ok ce /\
    campo row COLS_TEL "" = Ok te /\
    r = registro_de c n i tp g l nu b ce te.
Proof.
  unfold processar_linha, nome_de.
  destruct (campo row COLS_CNES "") as [c|] eqn:Hc; [|discriminate].
  cbn [bind]. destruct (PyStr.truthy c) eqn:Nc; [|discriminate]. cbn [negb].
  destruct (campo row COLS_FANTASIA "") as [n0|] eqn:Hf; [|discriminate].
  cbn [bind].
  destruct (if negb (PyStr.truthy n0) then campo row COLS_RAZAO "" else Ok n0)
    as [n|] eqn:Hn; [|discriminate].
  cbn [bind]. destruct (PyStr.truthy n) eqn:Nn; [|discriminate]. cbn [negb].
  destruct (campo row COLS_IBGE "") as [i|] eqn:Hi; [|discriminate].
  destruct (campo row COLS_TP "02") as [tp|] eqn:Htp; [|discriminate].
  cbn [bind].
  cbv zeta.
  match goal with
  | |- context [dict_get TP_UNIDADE_MAP ?k ?d] =>
      destruct (dict_get TP_UNIDADE_MAP k d) as [nv pf] eqn:D
  end.
  destruct (campo row COLS_GESTAO "M") as [g|] eqn:Hg; [|discriminate].
  destruct (campo row COLS_LOGRADOURO "") as [l|] eqn:Hl; [|discriminate].
  destruct (campo row COLS_NUMERO "") as [nu|] eqn:Hnu; [|discriminate].
  destruct (campo row COLS_BAIRRO "") as [b|] eqn:Hb; [|discriminate].
  destruct (campo row COLS_CEP "") as [ce|] eqn:Hce; [|discriminate].
  destruct (campo row COLS_TEL "") as [te|] eqn:Hte; [|discriminate].
  cbn [bind]. intros H. injection H as <-.
  exists c, n, i, tp, g, l, nu, b, ce, te.
  apply truthy_true in Nc, Nn. repeat (split; [assumption || reflexivity|]).
  unfold registro_de. cbv zeta. rewrite D. reflexivity.
Qed.

Lemma nome_de_total (row : Series) :
  unique_labels (index row) = true -> exists n, nome_de row = Ok n.
Proof.
  intros U. unfold nome_de.
  destruct (campo_total row U COLS_FANTASIA "") as [n0 ->]. cbn [bind].
  destruct (PyStr.truthy n0); cbn [negb]; [now exists n0|].
  now apply campo_total.
Qed.

Lemma nome_de_empty (row : Series) :
  nome_de row = Ok "" <->
  campo row COLS_FANTASIA "" = Ok "" /\ campo row COLS_RAZAO "" = Ok "".
Proof.
  unfold nome_de. split.
  - destruct (campo row COLS_FANTASIA "") as [n0|]; [|discriminate].
    cbn [bind]. destruct n0; cbn [PyStr.truthy negb]; [auto|discriminate].
  - intros [-> H]. exact H.
Qed.

Lemma processar_linha_skip (row : Series) :
  unique_labels (index row) = true ->
  processar_linha row = Ok None <->
  campo row COLS_CNES "" = Ok "" \/ nome_de row = Ok "".
Proof.
  intros U.
  destruct (campo_total row U COLS_CNES "") as [c Hc].
  destruct (nome_de_total row U) as [n Hn].
  destruct (campo_total row U COLS_IBGE "") as [i Hi].
  destruct (campo_total row U COLS_TP "02") as [tp Htp].
  destruct (campo_total row U COLS_GESTAO "M") as [g Hg].
  destruct (campo_total row U COLS_LOGRADOURO "") as [l Hl].
  destruct (campo_total row U COLS_NUMERO "") as [nu Hnu].
  destruct (campo_total row U COLS_BAIRRO "") as [b Hb].
  destruct (campo_total row U COLS_CEP "") as [ce Hce].
  destruct (campo_total row U COLS_TEL "") as [te Hte].
  destruct (string_dec c "") as [Ec|Ec].
  - subst c. split; [auto|]. intros _.
    unfold processar_linha. now rewrite Hc.
  - destruct (string_dec n "") as [En|En].
    + subst n. split; [auto|]. intros _.
      unfold processar_linha. rewrite Hc. cbn [bind].
      apply truthy_true in Ec. rewrite Ec. cbn [negb].
      unfold nome_de in Hn.
      destruct (campo row COLS_FANTASIA "") as [n0|]; [|discriminate].
      cbn [bind] in Hn |- *. rewrite Hn. reflexivity.
    + rewrite (processar_linha_emit row c n i tp g l nu b ce te) by assumption.
      rewrite Hc, Hn. split; [discriminate|].
      intros [H|H]; injection H; congruence.
Qed.

Lemma processar_linha_total (row : Series) :
  unique_labels (index row) = true -> exists o, processar_linha row = Ok o.
Proof.
  intros U.
  destruct (campo_total row U COLS_CNES "") as [c Hc].
  destruct (nome_de_total row U) as [n Hn].
  destruct (string_dec c "") as [Ec|Ec].
  - exists None. apply processar_linha_skip; auto. left. congruence.
  - destruct (string_dec n "") as [En|En].
    + exists None. apply processar_linha_skip; auto. right. congruence.
    + destruct (campo_total row U COLS_IBGE "") as [i Hi].
      destruct (campo_total row U COLS_TP "02") as [tp Htp].
      destruct (campo_total row U COLS_GESTAO "M") as [g Hg].
      destruct (campo_total row U COLS_LOGRADOURO "") as [l Hl].
      destruct (campo_total row U COLS_NUMERO "") as [nu Hnu].
      destruct (campo_total row U COLS_BAIRRO "") as [b Hb].
      destruct (campo_total row U COLS_CEP "") as [ce Hce].
      destruct (campo_total row U COLS_TEL "") as [te Hte].
      eexists. now apply (processar_linha_emit row c n i tp g l nu b ce te).
Qed.

Lemma campo_all_absent (row : Series) (cands : list string) (d : string) :
  (forall c, In c cands -> ~ In c (index row)) -> campo row cands d = Ok d.
Proof.
  induction cands as [|c rest IH]; intros H; [reflexivity|].
  rewrite campo_absent.
  - apply IH. intros c' I. apply H. now right.
  - apply loc_absent, mem_false, H. now left.
Qed.

Lemma dict_get_miss {V : Type} (d : list (string * V)) (k : string) (dflt : V) :
  (forall e, ~ In (k, e) d) -> dict_get d k dflt = dflt.
Proof.
  induction d as [|[k' v] d IH]; intros H; simpl; [reflexivity|].
  destruct (String.eqb_spec k' k) as [->|N].
  - exfalso. apply (H v). now left.
  - apply IH. intros e I. apply (H e). now right.
Qed.

Lemma dict_get_hit {V : Type} (d : list (string * V)) (k : string) (dflt e : V) :
  unique_labels (map fst d) = true -> In (k, e) d -> dict_get d k dflt = e.
Proof.
  induction d as [|[k' v] d IH]; simpl; [tauto|].
  intros U [E|I].
  - injection E as -> ->. now rewrite String.eqb_refl.
  - apply andb_true_iff in U as [U1 U2].
    destruct (String.eqb_spec k' k) as [->|N]; [|now apply IH].
    exfalso. apply negb_true_iff, mem_false in U1. apply U1.
    now apply (in_map fst) in I.
Qed.

Lemma gestao_rotulo_cases (g : string) :
  dict_get GESTAO_ROTULO g "Municipal"
  = if String.eqb g "E" then "Estadual" else "Municipal".
Proof.
  unfold GESTAO_ROTULO. cbn [dict_get].
  destruct (String.eqb_spec "M" g) as [<-|_]; [reflexivity|].
  rewrite (String.eqb_sym g "E").
  destruct (String.eqb "E" g); [reflexivity|].
  now destruct (String.eqb "D" g).
Qed.

(** C1.  On a row with distinct labels the loop body raises nothing, and
    it skips the row exactly when the facility code resolved over
    CO_UNIDADE, CNES, CO_CNES, COUNIDADE is empty, or when the commercial
    name and the legal name both resolve to empty.  A commercial name that
    resolves wins over the legal name, and a skipped row adds nothing to
    the list of records. *)
Theorem skip_exactly_without_code_or_name (row : Series) :
  unique_labels (index row) = true ->
  (exists o, processar_linha row = Ok o)
  /\ (processar_linha row = Ok None <->
      campo row ["CO_UNIDADE"; "CNES"; "CO_CNES"; "COUNIDADE"] "" = Ok ""
      \/ (campo row COLS_FANTASIA "" = Ok "" /\ campo row COLS_RAZAO "" = Ok ""))
  /\ (forall n r,
      campo row COLS_FANTASIA "" = Ok n -> n <> "" ->
      processar_linha row = Ok (Some r) -> nome r = PyStr.title n)
  /\ (forall rest registros,
      processar_linha row = Ok None ->
      processar_linhas (row :: rest) registros = processar_linhas rest registros).
Proof.
  intros U. split; [|split; [|split]].
  - now apply processar_linha_total.
  - rewrite (processar_linha_skip row U), nome_de_empty. reflexivity.
  - intros n r Hn Nn H.
    apply processar_linha_some in H
      as (c & n' & i & tp & g & l & nu & b & ce & te & _ & _ & Hn' & _ & H).
    unfold nome_de in Hn'. rewrite Hn in Hn'. cbn [bind] in Hn'.
    apply truthy_true in Nn. rewrite Nn in Hn'. cbn [negb] in Hn'.
    injection Hn' as <-.
    destruct H as (_ & _ & _ & _ & _ & _ & _ & _ & ->). reflexivity.
  - intros rest registros H. cbn [processar_linhas]. now rewrite H.
Qed.

Lemma skip_exactly_without_code_or_name_witness :
  unique_labels (index [("CNES", VStr "2269311"); ("NO_FANTASIA", VNull);
                        ("NO_RAZAO_SOCIAL", VStr " ")]) = true
  /\ processar_linha [("CNES", VStr "2269311"); ("NO_FANTASIA", VNull);
                      ("NO_RAZAO_SOCIAL", VStr " ")] = Ok None.
Proof.
  split; [reflexivity|].
  apply (skip_exactly_without_code_or_name
           [("CNES", VStr "2269311"); ("NO_FANTASIA", VNull);
            ("NO_RAZAO_SOCIAL", VStr " ")] eq_refl).
  right. split; reflexivity.
Defined.

(** C7.  The resolved type code is padded to two characters and looked up
    in TP_UNIDADE_MAP; a code that has no entry gives tier primaria and
    label Unidade de Saúde, and a row without any type column resolves to
    code 02, that is primaria and Centro de Saúde / UBS. *)
Theorem tipo_de_unidade_classificado (row : Series) (r : Registro) :
  processar_linha row = Ok (Some r) ->
  exists tp,
    campo row COLS_TP "02" = Ok tp
    /\ (forall e, In (PyStr.zfill 2 tp, e) TP_UNIDADE_MAP -> (nivel r, perfil r) = e)
    /\ ((forall e, ~ In (PyStr.zfill 2 tp, e) TP_UNIDADE_MAP) ->
        nivel r = "primaria" /\ perfil r = "Unidade de Saúde")
    /\ ((forall c, In c COLS_TP -> ~ In c (index row)) ->
        tp = "02" /\ nivel r = "primaria" /\ perfil r = "Centro de Saúde / UBS").
Proof.
  intros H.
  apply processar_linha_some in H
    as (c & n & i & tp & g & l & nu & b & ce & te & H).
  destruct H as (_ & _ & _ & _ & _ & Htp & _ & _ & _ & _ & _ & _ & ->).
  exists tp. split; [exact Htp|]. unfold registro_de. cbn [nivel perfil].
  split; [|split].
  - intros e I. rewrite <- surjective_pairing.
    now apply dict_get_hit.
  - intros M. rewrite dict_get_miss by exact M. now split.
  - intros A. rewrite (campo_all_absent row COLS_TP "02" A) in Htp.
    injection Htp as <-. now split.
Qed.

Lemma tipo_de_unidade_classificado_witness :
  processar_linha [("CNES", VStr "2269311"); ("NO_FANTASIA", VStr "UPA CENTRO");
                   ("TP_UNIDADE", VStr "99")]
  = Ok (Some (registro_de "2269311" "UPA CENTRO" "" "99" "M" "" "" "" "" ""))
  /\ exists tp,
      campo [("CNES", VStr "2269311"); ("NO_FANTASIA", VStr "UPA CENTRO");
             ("TP_UNIDADE", VStr "99")] COLS_TP "02" = Ok tp
      /\ ((forall e, ~ In (PyStr.zfill 2 tp, e) TP_UNIDADE_MAP) ->
          nivel (registro_de "2269311" "UPA CENTRO" "" "99" "M" "" "" "" "" "")
          = "primaria"
          /\ perfil (registro_de "2269311" "UPA CENTRO" "" "99" "M" "" "" "" "" "")
             = "Unidade de Saúde").
Proof.
  split; [reflexivity|].
  destruct (tipo_de_unidade_classificado
              [("CNES", VStr "2269311"); ("NO_FANTASIA", VStr "UPA CENTRO");
               ("TP_UNIDADE", VStr "99")]
              (registro_de "2269311" "UPA CENTRO" "" "99" "M" "" "" "" "" "")
              eq_refl) as [tp [H [_ [M _]]]].
  exists tp. split; [exact H|exact M].
Defined.

(** C8.  The address is street, comma, number when both resolve, the
    number alone when only the number resolves, the street alone when only
    the street resolves, and empty when neither does. *)
Theorem endereco_composto (row : Series) (r : Registro) :
  processar_linha row = Ok (Some r) ->
  exists l n,
    campo row COLS_LOGRADOURO "" = Ok l
    /\ campo row COLS_NUMERO "" = Ok n
    /\ (l <> "" -> n <> "" -> logradouro r = (l ++ ", " ++ n)%string)
    /\ (l = "" -> n <> "" -> logradouro r = n)
    /\ (l <> "" -> n = "" -> logradouro r = l)
    /\ (l = "" -> n = "" -> logradouro r = "").
Proof.
  intros H.
  apply processar_linha_some in H
    as (c & n & i & tp & g & l & nu & b & ce & te & H).
  destruct H as (_ & _ & _ & _ & _ & _ & _ & Hl & Hnu & _ & _ & _ & ->).
  exists l, nu. split; [exact Hl|]. split; [exact Hnu|].
  unfold registro_de, endereco. cbn [logradouro].
  repeat split; intros A B;
    destruct l; destruct nu; try congruence; reflexivity.
Qed.

Lemma endereco_composto_witness :
  processar_linha
    [("CNES", VStr "2269311"); ("NO_FANTASIA", VStr "UPA CENTRO");
     ("NO_LOGRADOURO", VStr "Av. Brasil"); ("NU_ENDERECO", VStr "100")]
  = Ok (Some (registro_de "2269311" "UPA CENTRO" "" "02" "M" "Av. Brasil" "100"
                          "" "" ""))
  /\ exists l n,
      campo [("CNES", VStr "2269311"); ("NO_FANTASIA", VStr "UPA CENTRO");
             ("NO_LOGRADOURO", VStr "Av. Brasil"); ("NU_ENDERECO", VStr "100")]
            COLS_LOGRADOURO "" = Ok l
      /\ campo [("CNES", VStr "2269311"); ("NO_FANTASIA", VStr "UPA CENTRO");
                ("NO_LOGRADOURO", VStr "Av. Brasil"); ("NU_ENDERECO", VStr "100")]
               COLS_NUMERO "" = Ok n
      /\ (l <> "" -> n <> "" ->
          logradouro (registro_de "2269311" "UPA CENTRO" "" "02" "M" "Av. Brasil"
                                  "100" "" "" "")
          = (l ++ ", " ++ n)%string).
Proof.
  split; [reflexivity|].
  destruct (endereco_composto
              [("CNES", VStr "2269311"); ("NO_FANTASIA", VStr "UPA CENTRO");
               ("NO_LOGRADOURO", VStr "Av. Brasil"); ("NU_ENDERECO", VStr "100")]
              (registro_de "2269311" "UPA CENTRO" "" "02" "M" "Av. Brasil" "100"
                           "" "" "")
              eq_refl) as [l [n [H1 [H2 [H3 _]]]]].
  exists l, n. repeat split; assumption.
Defined.

(** C10.  The governance label is Estadual exactly when the resolved
    governance code is E; every other code, M and D included, gives
    Municipal, and a row without governance column resolves to M.  A cell
    holding D passes the SUS filter. *)
Theorem gestao_estadual_so_para_E (row : Series) (r : Registro) :
  processar_linha row = Ok (Some r) ->
  exists g,
    campo row COLS_GESTAO "M" = Ok g
    /\ (gestao r = "Estadual" <-> g = "E")
    /\ (g <> "E" -> gestao r = "Municipal")
    /\ ((forall c, In c COLS_GESTAO -> ~ In c (index row)) -> g = "M")
    /\ (forall df c cells,
        cell (columns df) c cells = VStr "D" -> sus df c cells = true).
Proof.
  intros H.
  apply processar_linha_some in H
    as (c & n & i & tp & g & l & nu & b & ce & te & H).
  destruct H as (_ & _ & _ & _ & _ & _ & Hg & _ & _ & _ & _ & _ & ->).
  exists g. split; [exact Hg|].
  unfold registro_de. cbn [gestao]. rewrite gestao_rotulo_cases.
  destruct (String.eqb_spec g "E") as [->|N].
  - repeat split; try congruence.
    + intros A. rewrite (campo_all_absent row COLS_GESTAO "M" A) in Hg.
      congruence.
    + intros df c' cells E. unfold sus. now rewrite E.
  - repeat split; try congruence.
    + intros A. rewrite (campo_all_absent row COLS_GESTAO "M" A) in Hg.
      congruence.
    + intros df c' cells E. unfold sus. now rewrite E.
Qed.

Lemma gestao_estadual_so_para_E_witness :
  processar_linha [("CNES", VStr "2269311"); ("NO_FANTASIA", VStr "UPA CENTRO");
                   ("TP_GESTAO", VStr "D")]
  = Ok (Some (registro_de "2269311" "UPA CENTRO" "" "02" "D" "" "" "" "" ""))
  /\ exists g,
      campo [("CNES", VStr "2269311"); ("NO_FANTASIA", VStr "UPA CENTRO");
             ("TP_GESTAO", VStr "D")] COLS_GESTAO "M" = Ok g
      /\ g <> "E".
Proof.
  split; [reflexivity|].
  destruct (gestao_estadual_so_para_E
              [("CNES", VStr "2269311"); ("NO_FANTASIA", VStr "UPA CENTRO");
               ("TP_GESTAO", VStr "D")]
              (registro_de "2269311" "UPA CENTRO" "" "02" "D" "" "" "" "" "")
              eq_refl) as [g [H [H1 _]]].
  exists g. split; [exact H|].
  intros E. apply H1 in E. discriminate E.
Defined.

(** ** Padding, digits and table entries *)

Lemma length_app (s t : string) :
  String.length (s ++ t) = String.length s + String.length t.
Proof. induction s as [|a s IH]; simpl; [reflexivity|now rewrite IH]. Qed.

Lemma app_empty_r (s : string) : (s ++ "")%string = s.
Proof. induction s as [|a s IH]; simpl; [reflexivity|now rewrite IH]. Qed.

Lemma length_zeros (n : nat) : String.length (PyStr.zeros n) = n.
Proof. induction n as [|n IH]; simpl; [reflexivity|now rewrite IH]. Qed.

Lemma zfill_length (w : nat) (s : string) :
  String.length (PyStr.zfill w s) = Nat.max w (String.length s).
Proof.
  unfold PyStr.zfill. destruct (Nat.leb_spec w (String.length s)) as [L|L].
  - lia.
  - destruct s as [|c rest].
    + rewrite length_zeros. simpl. lia.
    + destruct (PyStr.is_sign c); simpl in *;
        rewrite length_app, length_zeros; simpl; lia.
Qed.


Lemma zfill_unsigned (w : nat) (s : string) :
  String.length s < w ->
  (forall c rest, s = String c rest -> PyStr.is_sign c = false) ->
  PyStr.zfill w s = (PyStr.zeros (w - String.length s) ++ s)%string.
Proof.
  intros L U. unfold PyStr.zfill.
  destruct (Nat.leb_spec w (String.length s)) as [K|_]; [lia|].
  destruct s as [|c rest]; [now rewrite app_empty_r|].
  now rewrite (U c rest eq_refl).
Qed.

Lemma only_digits_all (s : string) :
  PyStr.all_chars PyStr.isdigit (PyStr.only_digits s) = true.
Proof.
  induction s as [|a s IH]; simpl; [reflexivity|].
  destruct (PyStr.isdigit a) eqn:E; simpl; [now rewrite E|exact IH].
Qed.


Lemma dict_get_entry {V : Type} (d : list (string * V)) (k : string) (dflt : V) :
  dict_get d k dflt = dflt \/ In (k, dict_get d k dflt) d.
Proof.
  induction d as [|[k' v] d IH]; simpl; [now left|].
  destruct (String.eqb_spec k' k) as [->|N]; [right; now left|].
  destruct IH as [E|I]; [now left|right; now right].
Qed.

Lemma nivel_in_NIVEIS (k : string) :
  In (fst (dict_get TP_UNIDADE_MAP k ("primaria", "Unidade de Saúde"))) NIVEIS.
Proof.
  assert (T : forallb (fun kv => mem (fst (snd kv)) NIVEIS) TP_UNIDADE_MAP = true)
    by reflexivity.
  destruct (dict_get_entry TP_UNIDADE_MAP k ("primaria", "Unidade de Saúde"))
    as [->|I].
  - simpl. now left.
  - rewrite forallb_forall in T. apply T in I. now apply mem_In in I.
Qed.

Lemma gestao_in_GESTOES (g : string) :
  In (dict_get GESTAO_ROTULO g "Municipal") GESTOES.
Proof.
  rewrite gestao_rotulo_cases. destruct (String.eqb g "E"); simpl; auto.
Qed.

(** ** The loop *)

Lemma processar_linhas_invariant (P : Registro -> Prop) (rows : list Series) :
  (forall row r, In row rows -> processar_linha row = Ok (Some r) -> P r) ->
  forall registros out,
    Forall P registros ->
    processar_linhas rows registros = Ok out -> Forall P out.
Proof.
  induction rows as [|row rest IH]; intros HP registros out F H.
  - simpl in H. now injection H as <-.
  - cbn [processar_linhas] in H.
    destruct (processar_linha row) as [[r|]|] eqn:E; cbn [bind] in H;
      try discriminate.
    + apply (IH (fun row' r' I => HP row' r' (or_intror I))
                (registros ++ [r]) out); [|exact H].
      apply Forall_app. split; [exact F|].
      constructor; [|constructor]. apply (HP row r); [now left|exact E].
    + apply (IH (fun row' r' I => HP row' r' (or_intror I)) registros out F H).
Qed.

Lemma processar_linhas_app (rows : list Series) :
  forall acc out,
    processar_linhas rows [] = Ok out ->
    processar_linhas rows acc = Ok (acc ++ out).
Proof.
  assert (G : forall rows acc pre out,
             processar_linhas rows acc = Ok out ->
             processar_linhas rows (pre ++ acc) = Ok (pre ++ out)).
  { clear rows. induction rows as [|row rest IH]; intros acc pre out H.
    - simpl in *. now injection H as <-.
    - cbn [processar_linhas] in *.
      destruct (processar_linha row) as [[r|]|]; cbn [bind] in *;
        try discriminate.
      + rewrite <- app_assoc. now apply IH.
      + now apply IH. }
  intros acc out H. specialize (G rows [] acc out H).
  now rewrite app_nil_r in G.
Qed.

(** ** Emitted records *)

Lemma registro_de_shape (c n i tp g l nu b ce te : string) :
  let r := registro_de c n i tp g l nu b ce te in
  7 <= String.length (cnes r)
  /\ (ibge6 r = "" \/ 6 <= String.length (ibge6 r))
  /\ In (nivel r) NIVEIS /\ In (gestao r) GESTOES
  /\ PyStr.all_chars PyStr.isdigit (cep r) = true
  /\ PyStr.all_chars PyStr.isdigit (tel r) = true.
Proof.
  unfold registro_de. cbn [cnes ibge6 nivel gestao cep tel].
  split; [rewrite zfill_length; lia|].
  split.
  { destruct (PyStr.truthy i); [right; rewrite zfill_length; lia|now left]. }
  split; [apply nivel_in_NIVEIS|].
  split; [apply gestao_in_GESTOES|].
  split; apply only_digits_all.
Qed.

(** C3, as the code has it.  Every record that [processar_df] emits has an
    id of at least 7 characters, a region code that is empty or has at
    least 6 characters, a tier among primaria, secundaria, terciaria, a
    governance label among Municipal, Estadual, and a postal code and a
    phone made of decimal digits only.  When the resolved facility code has
    at most 7 characters the id has exactly 7, and a shorter code without
    leading sign is the id's suffix after the zeros; a resolved region code
    of at most 6 characters gives exactly 6. *)
Theorem registros_emitidos_bem_formados (df : DataFrame) (uf : string)
    (regs : list Registro) :
  frame_ok (upper_columns df) = true ->
  processar_df df uf = Ok regs ->
  Forall (fun r =>
            7 <= String.length (cnes r)
            /\ (ibge6 r = "" \/ 6 <= String.length (ibge6 r))
            /\ In (nivel r) NIVEIS /\ In (gestao r) GESTOES
            /\ PyStr.all_chars PyStr.isdigit (cep r) = true
            /\ PyStr.all_chars PyStr.isdigit (tel r) = true) regs
  /\ (forall row r c,
      processar_linha row = Ok (Some r) -> campo row COLS_CNES "" = Ok c ->
      (String.length c <= 7 -> String.length (cnes r) = 7)
      /\ (String.length c < 7 ->
          (forall a rest, c = String a rest -> PyStr.is_sign a = false) ->
          cnes r = (PyStr.zeros (7 - String.length c) ++ c)%string))
  /\ (forall row r i,
      processar_linha row = Ok (Some r) -> campo row COLS_IBGE "" = Ok i ->
      i <> "" -> String.length i <= 6 -> String.length (ibge6 r) = 6).
Proof.
  intros _ H. split; [|split].
  - unfold processar_df in H.
    eapply processar_linhas_invariant; [| |exact H]; [|constructor].
    intros row r _ E.
    apply processar_linha_some in E
      as (c & n & i & tp & g & l & nu & b & ce & te & E).
    destruct E as (_ & _ & _ & _ & _ & _ & _ & _ & _ & _ & _ & _ & ->).
    apply registro_de_shape.
  - intros row r c E Hc.
    apply processar_linha_some in E
      as (c' & n & i & tp & g & l & nu & b & ce & te & E).
    destruct E as (Hc' & _ & _ & _ & _ & _ & _ & _ & _ & _ & _ & _ & ->).
    rewrite Hc in Hc'. injection Hc' as <-.
    unfold registro_de. cbn [cnes]. split.
    + intros L. rewrite zfill_length. lia.
    + intros L U. now apply zfill_unsigned.
  - intros row r i E Hi Ni L.
    apply processar_linha_some in E
      as (c & n & i' & tp & g & l & nu & b & ce & te & E).
    destruct E as (_ & _ & _ & _ & Hi' & _ & _ & _ & _ & _ & _ & _ & ->).
    rewrite Hi in Hi'. injection Hi' as <-.
    unfold registro_de. cbn [ibge6].
    apply truthy_true in Ni. rewrite Ni, zfill_length. lia.
Qed.

Lemma registros_emitidos_bem_formados_witness :
  frame_ok (upper_columns
              {| columns := ["cnes"; "no_fantasia"; "tp_gestao"; "nu_cep"];
                 linhas := [[VStr "12345"; VStr "UBS VILA NOVA"; VStr "E";
                             VStr "20.000-000"]] |}) = true
  /\ processar_df
    {| columns := ["cnes"; "no_fantasia"; "tp_gestao"; "nu_cep"];
       linhas := [[VStr "12345"; VStr "UBS VILA NOVA"; VStr "E"; VStr "20.000-000"]] |}
    "RJ"
  = Ok [registro_de "12345" "UBS VILA NOVA" "" "02" "E" "" "" "" "20.000-000" ""]
  /\ Forall (fun r => 7 <= String.length (cnes r)
                      /\ PyStr.all_chars PyStr.isdigit (cep r) = true)
       [registro_de "12345" "UBS VILA NOVA" "" "02" "E" "" "" "" "20.000-000" ""].
Proof.
  split; [reflexivity|]. split; [reflexivity|].
  destruct (registros_emitidos_bem_formados
              {| columns := ["cnes"; "no_fantasia"; "tp_gestao"; "nu_cep"];
                 linhas := [[VStr "12345"; VStr "UBS VILA NOVA"; VStr "E";
                             VStr "20.000-000"]] |}
              "RJ"
              [registro_de "12345" "UBS VILA NOVA" "" "02" "E" "" "" "" "20.000-000" ""]
              eq_refl eq_refl) as [F _].
  eapply Forall_impl; [|exact F].
  intros r (H1 & _ & _ & _ & H5 & _). now split.
Defined.

(** C3 as worded fails: a facility code of eight characters is emitted
    unchanged, so the id is not 7 characters long. *)
Lemma id_longer_than_seven :
  processar_df
    {| columns := ["CNES"; "NO_FANTASIA"];
       linhas := [[VStr "12345678"; VStr "UBS VILA NOVA"]] |} "RJ"
  = Ok [ {| cnes := "12345678"; nome := "Ubs Vila Nova"; nivel := "primaria";
            perfil := "Centro de Saúde / UBS"; gestao := "Municipal";
            ibge6 := ""; logradouro := ""; bairro := ""; cep := ""; tel := "" |} ]
  /\ registro_conforme
       {| cnes := "12345678"; nome := "Ubs Vila Nova"; nivel := "primaria";
          perfil := "Centro de Saúde / UBS"; gestao := "Municipal";
          ibge6 := ""; logradouro := ""; bairro := ""; cep := ""; tel := "" |}
     = false.
Proof. split; reflexivity. Qed.

Lemma zeros_clean (n : nat) : clean (PyStr.zeros (S n)).
Proof.
  split; [|reflexivity].
  unfold trimmed. simpl first_ok.
  induction n as [|n IH]; [reflexivity|].
  change (PyStr.zeros (S (S n))) with (String "0" (PyStr.zeros (S n))).
  rewrite last_ok_cons by discriminate. exact IH.
Qed.

(** C6, as the code has it.  A string made of zeros is an ordinary value
    for [campo]: on a row with distinct labels, a candidate that holds one
    ends the resolution and is returned, whatever the later candidates and
    the default are.  A row that holds one under CO_UNIDADE is therefore
    skipped only for want of a name, and its id is the padded zeros. *)
Theorem campo_devolve_zeros (row : Series) (n : nat) :
  unique_labels (index row) = true ->
  (forall c rest d,
      In (c, VStr (PyStr.zeros (S n))) row ->
      campo row (c :: rest) d = Ok (PyStr.zeros (S n)))
  /\ (In ("CO_UNIDADE", VStr (PyStr.zeros (S n))) row ->
      (processar_linha row = Ok None <->
       campo row COLS_FANTASIA "" = Ok "" /\ campo row COLS_RAZAO "" = Ok "")
      /\ forall r,
          processar_linha row = Ok (Some r) ->
          cnes r = PyStr.zfill 7 (PyStr.zeros (S n))).
Proof.
  intros U.
  assert (Z : forall c rest d,
             In (c, VStr (PyStr.zeros (S n))) row ->
             campo row (c :: rest) d = Ok (PyStr.zeros (S n))).
  { intros c rest d I.
    apply campo_hit_clean; [now apply loc_the|apply zeros_clean]. }
  split; [exact Z|].
  intros I.
  assert (C : campo row COLS_CNES "" = Ok (PyStr.zeros (S n)))
    by (now apply Z).
  split.
  - rewrite (processar_linha_skip row U), nome_de_empty, C. split.
    + intros [H|H]; [discriminate H|exact H].
    + intros H. now right.
  - intros r H.
    apply processar_linha_some in H
      as (c & n' & i & tp & g & l & nu & b & ce & te & H).
    destruct H as (Hc & _ & _ & _ & _ & _ & _ & _ & _ & _ & _ & _ & ->).
    rewrite C in Hc. injection Hc as <-. reflexivity.
Qed.

Lemma campo_devolve_zeros_witness :
  unique_labels (index [("CNES", VStr "0"); ("CO_CNES", VStr "7")]) = true
  /\ campo [("CNES", VStr "0"); ("CO_CNES", VStr "7")] ["CNES"; "CO_CNES"] ""
     = Ok "0".
Proof.
  split; [reflexivity|].
  apply (proj1 (campo_devolve_zeros [("CNES", VStr "0"); ("CO_CNES", VStr "7")]
                  0 eq_refl)).
  simpl. auto.
Defined.

(** C6 as worded fails: the string zero is returned by [campo] instead of
    the default, and a row whose facility-code aliases all hold it is
    emitted, with id 0000000. *)
Lemma string_zero_is_a_value :
  campo [("CO_UNIDADE", VStr "0"); ("CNES", VStr "0"); ("CO_CNES", VStr "0");
         ("COUNIDADE", VStr "0"); ("NO_FANTASIA", VStr "UPA CENTRO")]
        COLS_CNES "" = Ok "0"
  /\ processar_linha
       [("CO_UNIDADE", VStr "0"); ("CNES", VStr "0"); ("CO_CNES", VStr "0");
        ("COUNIDADE", VStr "0"); ("NO_FANTASIA", VStr "UPA CENTRO")]
     = Ok (Some {| cnes := "0000000"; nome := "Upa Centro"; nivel := "primaria";
                   perfil := "Centro de Saúde / UBS"; gestao := "Municipal";
                   ibge6 := ""; logradouro := ""; bairro := ""; cep := "";
                   tel := "" |})
  /\ campo [("A", VStr "0"); ("B", VStr "x")] ["A"; "B"] "" <> Ok "x".
Proof. repeat split; try reflexivity. discriminate. Qed.

(** ** Frames *)

Lemma index_row_of (cols : list string) (cells : list value) :
  length cells = length cols -> index (row_of cols cells) = cols.
Proof.
  unfold index, row_of. revert cells.
  induction cols as [|c cols IH]; intros [|v cells] L; simpl in *;
    try reflexivity; try discriminate.
  now rewrite IH by lia.
Qed.

Lemma frame_ok_row (df : DataFrame) (cells : list value) :
  frame_ok df = true -> In cells (linhas df) ->
  index (row_of (columns df) cells) = columns df
  /\ unique_labels (index (row_of (columns df) cells)) = true.
Proof.
  unfold frame_ok. intros H I. apply andb_true_iff in H as [U R].
  rewrite forallb_forall in R. specialize (R cells I).
  apply Nat.eqb_eq in R. rewrite (index_row_of _ _ R). now split.
Qed.

Lemma cell_spec (df : DataFrame) (c : string) (cells : list value) :
  frame_ok df = true -> In cells (linhas df) -> In c (columns df) ->
  In (c, cell (columns df) c cells) (row_of (columns df) cells)
  /\ forall w, In (c, w) (row_of (columns df) cells) ->
               w = cell (columns df) c cells.
Proof.
  intros F I C. destruct (frame_ok_row df cells F I) as [X U].
  rewrite <- X in C. unfold index in C. apply in_map_iff in C as [[k v] [E K]].
  simpl in E. subst k.
  assert (L : forall w, In (c, w) (row_of (columns df) cells) ->
                        loc (row_of (columns df) cells) c = [w])
    by (intros w; now apply loc_the).
  unfold cell. split.
  - rewrite (L v K). exact K.
  - intros w W. now rewrite (L w W).
Qed.

Lemma sus_spec (df : DataFrame) (c : string) (cells : list value) :
  frame_ok df = true -> In cells (linhas df) -> In c (columns df) ->
  sus df c cells = true <-> vinculada (row_of (columns df) cells) c.
Proof.
  intros F I C. destruct (cell_spec df c cells F I C) as [K U].
  unfold sus, vinculada, isin. split.
  - destruct (cell (columns df) c cells) as [|s|z]; try discriminate.
    intros M. exists s. split; [exact K|]. now apply mem_In in M.
  - intros [s [W M]]. rewrite <- (U _ W). now apply mem_In.
Qed.

Lemma ativa_spec (df : DataFrame) (c : string) (cells : list value) :
  frame_ok df = true -> In cells (linhas df) -> In c (columns df) ->
  ativa df c cells = true <-> sem_desativacao (row_of (columns df) cells) c.
Proof.
  intros F I C. destruct (cell_spec df c cells F I C) as [K U].
  unfold ativa, sem_desativacao, isin, isna. split.
  - destruct (cell (columns df) c cells) as [|s|z]; try discriminate.
    + intros _. now left.
    + intros M. right. exists s. split; [exact K|].
      exact (proj1 (mem_In _ _) M).
  - intros [W|[s [W M]]]; rewrite <- (U _ W); [reflexivity|].
    exact (proj2 (mem_In _ _) M).
Qed.

Lemma primeira_coluna_some (aliases : list string) (df : DataFrame) (c : string) :
  primeira_coluna aliases df = Some c -> In c aliases /\ In c (columns df).
Proof.
  unfold primeira_coluna. intros H. apply find_some in H as [H1 H2].
  split; [exact H1|now apply mem_In].
Qed.

Lemma primeira_coluna_none (aliases : list string) (df : DataFrame) :
  primeira_coluna aliases df = None <->
  forall c, In c aliases -> ~ In c (columns df).
Proof.
  unfold primeira_coluna. split.
  - intros H c I. apply mem_false. exact (find_none _ _ H c I).
  - induction aliases as [|a aliases IH]; intros H; simpl; [reflexivity|].
    assert (E : mem a (columns df) = false) by (apply mem_false, H; now left).
    rewrite E. apply IH. intros c I. apply H. now right.
Qed.

Lemma filtro_ativas_em_first (aliases : list string) (df : DataFrame) :
  filtro_ativas_em aliases df
  = match primeira_coluna aliases df with
    | Some col => select df (ativa df col)
    | None => df
    end.
Proof.
  unfold primeira_coluna.
  induction aliases as [|a aliases IH]; simpl; [reflexivity|].
  destruct (mem a (columns df)); [reflexivity|exact IH].
Qed.

Lemma frame_ok_select (df : DataFrame) (keep : list value -> bool) :
  frame_ok df = true -> frame_ok (select df keep) = true.
Proof.
  unfold frame_ok, select. simpl. intros H.
  apply andb_true_iff in H as [U R]. rewrite U. simpl.
  rewrite forallb_forall in *. intros cells I.
  apply filter_In in I as [I _]. now apply R.
Qed.

Lemma frame_ok_filtro_sus (df : DataFrame) :
  frame_ok df = true -> frame_ok (filtro_sus df) = true.
Proof.
  intros F. unfold filtro_sus.
  destruct (col_gestao df) as [c|]; [|exact F].
  destruct (PyStr.truthy c); [now apply frame_ok_select|exact F].
Qed.

Lemma alias_gestao_truthy (c : string) :
  In c COLS_GESTAO -> PyStr.truthy c = true.
Proof. intros [<-|[<-|[<-|[]]]]; reflexivity. Qed.

(** C4.  Once the labels are upper-cased, if one of TP_GESTAO, TP_GESTAO_,
    TPGESTAO is a column, the first of them in that order decides: the
    rows kept for the loop are, in their order, exactly those whose cell in
    that column is M, E or D.  Without such a column the frame goes on
    unchanged. *)
Theorem filtro_sus_retem_vinculadas (df : DataFrame) :
  frame_ok (upper_columns df) = true ->
  (forall c,
      primeira_coluna ["TP_GESTAO"; "TP_GESTAO_"; "TPGESTAO"] (upper_columns df)
      = Some c ->
      columns (filtro_sus (upper_columns df)) = columns (upper_columns df)
      /\ exists keep,
          linhas (filtro_sus (upper_columns df)) = filter keep (linhas df)
          /\ forall cells,
              In cells (linhas df) ->
              (keep cells = true <->
               vinculada (row_of (columns (upper_columns df)) cells) c))
  /\ (primeira_coluna ["TP_GESTAO"; "TP_GESTAO_"; "TPGESTAO"] (upper_columns df)
      = None ->
      filtro_sus (upper_columns df) = upper_columns df)
  /\ ((exists c, In c ["TP_GESTAO"; "TP_GESTAO_"; "TPGESTAO"]
                 /\ In c (columns (upper_columns df)))
      <-> exists c,
          primeira_coluna ["TP_GESTAO"; "TP_GESTAO_"; "TPGESTAO"] (upper_columns df)
          = Some c)
  /\ (forall uf,
      processar_df df uf
      = processar_linhas
          (iterrows (filtro_ativas (filtro_sus (upper_columns df)))) []).
Proof.
  intros F. split; [|split; [|split]].
  - intros c H. pose proof (primeira_coluna_some _ _ _ H) as [A C].
    unfold filtro_sus, col_gestao.
    change (find (fun c0 => mem c0 (columns (upper_columns df))) COLS_GESTAO)
      with (primeira_coluna ["TP_GESTAO"; "TP_GESTAO_"; "TPGESTAO"] (upper_columns df)).
    rewrite H, (alias_gestao_truthy c A).
    split; [reflexivity|].
    exists (sus (upper_columns df) c). split; [reflexivity|].
    intros cells I. now apply sus_spec.
  - intros H. unfold filtro_sus, col_gestao.
    change (find (fun c0 => mem c0 (columns (upper_columns df))) COLS_GESTAO)
      with (primeira_coluna ["TP_GESTAO"; "TP_GESTAO_"; "TPGESTAO"] (upper_columns df)).
    now rewrite H.
  - split.
    + intros [c [A C]].
      destruct (primeira_coluna ["TP_GESTAO"; "TP_GESTAO_"; "TPGESTAO"]
                  (upper_columns df)) as [c'|] eqn:E; [now exists c'|].
      exfalso. exact (proj1 (primeira_coluna_none _ _) E c A C).
    + intros [c H]. exists c. now apply primeira_coluna_some in H.
  - intros uf. reflexivity.
Qed.

Lemma filtro_sus_retem_vinculadas_witness :
  frame_ok (upper_columns
              {| columns := ["cnes"; "tp_gestao"];
                 linhas := [[VStr "1"; VStr "M"]; [VStr "2"; VStr "S"];
                            [VStr "3"; VStr "E"]] |}) = true
  /\ exists c,
      primeira_coluna ["TP_GESTAO"; "TP_GESTAO_"; "TPGESTAO"]
        (upper_columns
           {| columns := ["cnes"; "tp_gestao"];
              linhas := [[VStr "1"; VStr "M"]; [VStr "2"; VStr "S"];
                         [VStr "3"; VStr "E"]] |}) = Some c.
Proof.
  split; [reflexivity|].
  apply (filtro_sus_retem_vinculadas
           {| columns := ["cnes"; "tp_gestao"];
              linhas := [[VStr "1"; VStr "M"]; [VStr "2"; VStr "S"];
                         [VStr "3"; VStr "E"]] |} eq_refl).
  exists "TP_GESTAO". simpl. auto.
Defined.

(** C5.  If one of DT_DESATIVACAO, DT_DESATIVACAO_, DTDESATIVACAO is a
    column, the first of them in that order is the only one consulted: the
    rows kept are, in their order, exactly those whose cell in that column
    is missing or one of the empty string, 0 and 00000000, whatever the
    other deactivation columns hold.  Without such a column the frame goes
    on unchanged. *)
Theorem filtro_ativas_primeira_coluna (d : DataFrame) :
  frame_ok d = true ->
  (forall col,
      primeira_coluna ["DT_DESATIVACAO"; "DT_DESATIVACAO_"; "DTDESATIVACAO"] d
      = Some col ->
      columns (filtro_ativas d) = columns d
      /\ exists keep,
          linhas (filtro_ativas d) = filter keep (linhas d)
          /\ forall cells,
              In cells (linhas d) ->
              (keep cells = true <->
               sem_desativacao (row_of (columns d) cells) col))
  /\ (primeira_coluna ["DT_DESATIVACAO"; "DT_DESATIVACAO_"; "DTDESATIVACAO"] d
      = None ->
      filtro_ativas d = d)
  /\ (In "DT_DESATIVACAO" (columns d) ->
      filtro_ativas d = select d (ativa d "DT_DESATIVACAO"))
  /\ (~ In "DT_DESATIVACAO" (columns d) -> In "DT_DESATIVACAO_" (columns d) ->
      filtro_ativas d = select d (ativa d "DT_DESATIVACAO_"))
  /\ (~ In "DT_DESATIVACAO" (columns d) -> ~ In "DT_DESATIVACAO_" (columns d) ->
      In "DTDESATIVACAO" (columns d) ->
      filtro_ativas d = select d (ativa d "DTDESATIVACAO"))
  /\ ((exists c, In c ["DT_DESATIVACAO"; "DT_DESATIVACAO_"; "DTDESATIVACAO"]
                 /\ In c (columns d))
      <-> exists c,
          primeira_coluna ["DT_DESATIVACAO"; "DT_DESATIVACAO_"; "DTDESATIVACAO"] d
          = Some c).
Proof.
  intros F. unfold filtro_ativas. rewrite filtro_ativas_em_first.
  change COLS_DESATIVACAO
    with ["DT_DESATIVACAO"; "DT_DESATIVACAO_"; "DTDESATIVACAO"].
  split; [|split; [|split; [|split; [|split]]]].
  - intros col H. pose proof (primeira_coluna_some _ _ _ H) as [A C].
    rewrite H. split; [reflexivity|].
    exists (ativa d col). split; [reflexivity|].
    intros cells I. now apply ativa_spec.
  - intros H. now rewrite H.
  - intros I. unfold primeira_coluna. cbn [find].
    apply mem_In in I. now rewrite I.
  - intros N1 I. unfold primeira_coluna. cbn [find].
    apply mem_false in N1. apply mem_In in I. now rewrite N1, I.
  - intros N1 N2 I. unfold primeira_coluna. cbn [find].
    apply mem_false in N1, N2. apply mem_In in I. now rewrite N1, N2, I.
  - split.
    + intros [c [A C]].
      destruct (primeira_coluna ["DT_DESATIVACAO"; "DT_DESATIVACAO_"; "DTDESATIVACAO"]
                  d) as [c'|] eqn:E; [now exists c'|].
      exfalso. exact (proj1 (primeira_coluna_none _ _) E c A C).
    + intros [c H]. exists c. now apply primeira_coluna_some in H.
Qed.

Lemma filtro_ativas_primeira_coluna_witness :
  frame_ok {| columns := ["CNES"; "DTDESATIVACAO"; "DT_DESATIVACAO"];
              linhas := [[VStr "1"; VStr "20200101"; VStr "00000000"];
                         [VStr "2"; VNull; VStr "20190501"]] |} = true
  /\ filtro_ativas
       {| columns := ["CNES"; "DTDESATIVACAO"; "DT_DESATIVACAO"];
          linhas := [[VStr "1"; VStr "20200101"; VStr "00000000"];
                     [VStr "2"; VNull; VStr "20190501"]] |}
     = select
         {| columns := ["CNES"; "DTDESATIVACAO"; "DT_DESATIVACAO"];
            linhas := [[VStr "1"; VStr "20200101"; VStr "00000000"];
                       [VStr "2"; VNull; VStr "20190501"]] |}
         (ativa {| columns := ["CNES"; "DTDESATIVACAO"; "DT_DESATIVACAO"];
                   linhas := [[VStr "1"; VStr "20200101"; VStr "00000000"];
                              [VStr "2"; VNull; VStr "20190501"]] |}
                "DT_DESATIVACAO").
Proof.
  split; [reflexivity|].
  apply (filtro_ativas_primeira_coluna
           {| columns := ["CNES"; "DTDESATIVACAO"; "DT_DESATIVACAO"];
              linhas := [[VStr "1"; VStr "20200101"; VStr "00000000"];
                         [VStr "2"; VNull; VStr "20190501"]] |} eq_refl).
  simpl. auto.
Defined.

(** ** Texts that survive a second resolution *)

Lemma all_chars_app (p : ascii -> bool) (s t : string) :
  PyStr.all_chars p (s ++ t) = PyStr.all_chars p s && PyStr.all_chars p t.
Proof.
  induction s as [|a s IH]; simpl; [reflexivity|].
  now rewrite IH, andb_assoc.
Qed.

Lemma first_ok_app (s t : string) : s <> "" -> first_ok (s ++ t) = first_ok s.
Proof. destruct s; [congruence|reflexivity]. Qed.

Lemma last_ok_zeros (n : nat) : last_ok (PyStr.zeros n) = true.
Proof.
  destruct n as [|n]; [reflexivity|].
  destruct (zeros_clean n) as [T _]. unfold trimmed in T.
  now apply andb_true_iff in T as [_ T].
Qed.

Lemma zfill_trimmed (w : nat) (s : string) :
  s <> "" -> trimmed s = true -> trimmed (PyStr.zfill w s) = true.
Proof.
  intros N T. unfold PyStr.zfill.
  destruct (Nat.leb_spec w (String.length s)) as [L|L]; [exact T|].
  destruct s as [|c rest]; [congruence|].
  unfold trimmed in *. apply andb_true_iff in T as [T1 T2].
  remember (w - String.length (String c rest)) as fill eqn:E.
  destruct fill as [|k]; [lia|].
  destruct (PyStr.is_sign c) eqn:S.
  - apply andb_true_iff. split.
    + simpl. now rewrite (is_sign_not_space c S).
    + rewrite last_ok_cons by discriminate.
      destruct rest as [|b rest'].
      * rewrite app_empty_r. apply last_ok_zeros.
      * rewrite last_ok_app by discriminate.
        now rewrite last_ok_cons in T2 by discriminate.
  - apply andb_true_iff. split; [reflexivity|].
    now rewrite last_ok_app by discriminate.
Qed.



Lemma title_from_idem (b : bool) (s : string) :
  PyStr.title_from b (PyStr.title_from b s) = PyStr.title_from b s.
Proof.
  revert b. induction s as [|a s IH]; intros b; [reflexivity|].
  cbn [PyStr.title_from].
  rewrite title_char_cased, IH.
  now rewrite (title_char_idem b a).
Qed.

Lemma title_from_first_ok (b : bool) (s : string) :
  first_ok (PyStr.title_from b s) = first_ok s.
Proof. destruct s; simpl; [reflexivity|now rewrite title_char_space]. Qed.

Lemma title_from_last_ok (b : bool) (s : string) :
  last_ok (PyStr.title_from b s) = last_ok s.
Proof.
  revert b. induction s as [|a s IH]; intros b; [reflexivity|].
  cbn [PyStr.title_from]. destruct s as [|a' s'].
  - simpl. now rewrite title_char_space.
  - rewrite (last_ok_cons a) by discriminate.
    rewrite last_ok_cons by discriminate. apply IH.
Qed.




Lemma endereco_clean (l nu : string) :
  l = "" \/ clean l -> nu = "" \/ clean nu ->
  endereco l nu = "" \/ clean (endereco l nu).
Proof.
  intros Hl Hnu. unfold endereco.
  destruct Hnu as [->|Cn]; [exact Hl|].
  rewrite (clean_truthy nu Cn).
  destruct Hl as [->|Cl]; [now right|].
  rewrite (clean_truthy l Cl). right.
  destruct Cl as [Tl Nl], Cn as [Tn Nn].
  assert (Ln : l <> "") by (intros ->; discriminate).
  assert (Nn' : nu <> "") by (intros ->; discriminate).
  unfold trimmed in *.
  apply andb_true_iff in Tl as [Tl1 Tl2], Tn as [Tn1 Tn2].
  split.
  - apply andb_true_iff. split.
    + now rewrite first_ok_app.
    + rewrite last_ok_app by discriminate.
      now rewrite (last_ok_app ", " nu Nn').
  - destruct (is_null_text (l ++ ", " ++ nu)) eqn:E; [|reflexivity].
    assert (C : PyStr.all_chars (fun a => negb (Ascii.eqb a ",")) (l ++ ", " ++ nu)
                = true)
      by (apply is_null_text_true in E as [->|[->| ->]]; reflexivity).
    rewrite all_chars_app in C. apply andb_true_iff in C as [_ C].
    discriminate C.
Qed.




Lemma nome_de_clean (row : Series) (n : string) :
  nome_de row = Ok n -> n <> "" -> clean n.
Proof.
  unfold nome_de. intros H N.
  destruct (campo row COLS_FANTASIA "") as [n0|] eqn:E; [|discriminate].
  cbn [bind] in H. destruct (PyStr.truthy n0); cbn [negb] in H.
  - injection H as <-. apply campo_result_clean in E as [E|E]; [contradiction|exact E].
  - apply campo_result_clean in H as [H|H]; [contradiction|exact H].
Qed.




(** *** ASCII text is kept by every step of the loop *)



















(** ** The whole function raises nothing on a frame of the model *)

Lemma frame_ok_filtro_ativas (df : DataFrame) :
  frame_ok df = true -> frame_ok (filtro_ativas df) = true.
Proof.
  intros F. unfold filtro_ativas. rewrite filtro_ativas_em_first.
  destruct (primeira_coluna COLS_DESATIVACAO df); [|exact F].
  now apply frame_ok_select.
Qed.

Lemma processar_linhas_total (rows : list Series) :
  (forall row, In row rows -> unique_labels (index row) = true) ->
  forall registros, exists out, processar_linhas rows registros = Ok out.
Proof.
  induction rows as [|row rest IH]; intros U registros.
  - now exists registros.
  - cbn [processar_linhas].
    destruct (processar_linha_total row (U row (or_introl eq_refl))) as [o ->].
    cbn [bind].
    destruct o; apply IH; intros row' I; apply U; now right.
Qed.

Lemma processar_df_total (df : DataFrame) (uf : string) :
  frame_ok (upper_columns df) = true ->
  exists registros, processar_df df uf = Ok registros.
Proof.
  intros F. unfold processar_df.
  apply processar_linhas_total.
  intros row I. unfold iterrows in I. apply in_map_iff in I as [cells [<- I]].
  apply frame_ok_row; [|exact I].
  now apply frame_ok_filtro_ativas, frame_ok_filtro_sus.
Qed.

(** * Further properties of the resolver *)

(** X1.  Whatever [campo] returns is either the default or a text read
    from a cell of a candidate: trimmed, not empty, and neither nan nor
    None.  A cell never comes back with white space around it. *)
Theorem campo_returns_default_or_clean (row : Series) (cands : list string)
    (d s : string) :
  campo row cands d = Ok s ->
  s = d
  \/ (trimmed s = true /\ s <> "" /\ s <> "nan" /\ s <> "None"
      /\ exists c v, In c cands /\ In (c, v) row /\ notna v = true
                     /\ s = PyStr.strip (py_str v)).
Proof.
  intros H. apply campo_result in H as [->|[c [I Q]]]; [now left|right].
  pose proof (qualifies_clean row c s Q) as [T N].
  destruct Q as [v [K [V [E _]]]].
  split; [exact T|]. repeat split.
  - intros ->. discriminate N.
  - intros ->. discriminate N.
  - intros ->. discriminate N.
  - exists c, v. auto.
Qed.

Lemma campo_returns_default_or_clean_witness :
  campo [("DS_BAIRRO", VStr "  Centro "); ("NO_BAIRRO", VStr "x")]
        ["DS_BAIRRO"; "NO_BAIRRO"] "" = Ok "Centro"
  /\ ("Centro" = ""
      \/ (trimmed "Centro" = true /\ "Centro" <> "" /\ "Centro" <> "nan"
          /\ "Centro" <> "None"
          /\ exists c v,
              In c ["DS_BAIRRO"; "NO_BAIRRO"]
              /\ In (c, v) [("DS_BAIRRO", VStr "  Centro "); ("NO_BAIRRO", VStr "x")]
              /\ notna v = true /\ "Centro" = PyStr.strip (py_str v))).
Proof.
  split; [reflexivity|].
  apply (campo_returns_default_or_clean
           [("DS_BAIRRO", VStr "  Centro "); ("NO_BAIRRO", VStr "x")]
           ["DS_BAIRRO"; "NO_BAIRRO"] "" "Centro" eq_refl).
Defined.

Lemma campo_same_cells (row1 row2 : Series) (cands : list string) (d : string) :
  (forall c, In c cands -> loc row1 c = loc row2 c) ->
  campo row1 cands d = campo row2 cands d.
Proof.
  induction cands as [|c rest IH]; intros H; [reflexivity|].
  cbn [campo]. rewrite <- (H c (or_introl eq_refl)).
  rewrite IH by (intros c' I; apply H; now right).
  reflexivity.
Qed.

(** X2.  [campo] looks only at the cells stored under its candidates: two
    rows that hold the same values under every candidate resolve alike,
    and a column whose label is no candidate can be added or removed
    without changing the result, exceptions included. *)
Theorem campo_ignores_other_columns (row1 row2 : Series) (cands : list string)
    (d : string) :
  (forall c, In c cands -> loc row1 c = loc row2 c) ->
  campo row1 cands d = campo row2 cands d
  /\ (forall k v, ~ In k cands -> campo ((k, v) :: row1) cands d = campo row2 cands d).
Proof.
  intros H. split; [now apply campo_same_cells|].
  intros k v N. apply campo_same_cells. intros c I.
  rewrite loc_cons. destruct (String.eqb_spec k c) as [->|_]; [contradiction|].
  now apply H.
Qed.

Lemma campo_ignores_other_columns_witness :
  (forall c, In c ["CNES"] ->
             loc [("CNES", VStr "7"); ("UF", VStr "RJ")] c
             = loc [("ANO", VInt 2024); ("CNES", VStr "7")] c)
  /\ campo [("CNES", VStr "7"); ("UF", VStr "RJ")] ["CNES"] ""
     = campo [("ANO", VInt 2024); ("CNES", VStr "7")] ["CNES"] "".
Proof.
  assert (H : forall c, In c ["CNES"] ->
                        loc [("CNES", VStr "7"); ("UF", VStr "RJ")] c
                        = loc [("ANO", VInt 2024); ("CNES", VStr "7")] c)
    by (intros c [<-|[]]; reflexivity).
  split; [exact H|].
  apply (campo_ignores_other_columns
           [("CNES", VStr "7"); ("UF", VStr "RJ")]
           [("ANO", VInt 2024); ("CNES", VStr "7")] ["CNES"] "" H).
Defined.

Lemma campo_app (row : Series) (xs ys : list string) :
  campo row (xs ++ ys) ""
  = (s <- campo row xs "" ;;
     if PyStr.truthy s then Ok s else campo row ys "").
Proof.
  induction xs as [|c rest IH]; [reflexivity|].
  simpl app. cbn [campo].
  destruct (loc row c) as [|v [|w l]]; [exact IH| |reflexivity].
  destruct (notna v && negb (is_null_text (PyStr.strip (py_str v)))) eqn:E;
    [|exact IH].
  cbn [bind]. apply andb_true_iff in E as [_ E]. apply negb_true_iff in E.
  destruct (PyStr.strip (py_str v)); [discriminate E|reflexivity].
Qed.

(** X3.  Resolving over two alias lists one after the other, the second
    only when the first gives the empty text, is resolving once over their
    concatenation.  The display name of the loop, commercial aliases then
    legal aliases, is [campo] over the five aliases in that order. *)
Theorem nome_is_campo_over_all_aliases (row : Series) :
  nome_de row
  = campo row ["NO_FANTASIA"; "NOFANTASIA"; "NO_RAZAO_SOCIAL";
               "NO_RAZAO_SOCIAL_"; "NORAZAOSOCIAL"] ""
  /\ forall xs ys,
      campo row (xs ++ ys) ""
      = (s <- campo row xs "" ;;
         if PyStr.truthy s then Ok s else campo row ys "").
Proof.
  split; [|apply campo_app].
  change ["NO_FANTASIA"; "NOFANTASIA"; "NO_RAZAO_SOCIAL"; "NO_RAZAO_SOCIAL_";
          "NORAZAOSOCIAL"] with (COLS_FANTASIA ++ COLS_RAZAO).
  rewrite campo_app. unfold nome_de.
  destruct (campo row COLS_FANTASIA "") as [n0|]; [|reflexivity].
  cbn [bind]. now destruct (PyStr.truthy n0).
Qed.

Lemma campo_raise_split (row : Series) (cands : list string) (d : string) (e : exn) :
  campo row cands d = Raise e ->
  exists pre c post,
    cands = pre ++ c :: post
    /\ (forall c', In c' pre ->
                   length (loc row c') <= 1 /\ forall s, ~ qualifies row c' s)
    /\ 2 <= length (loc row c).
Proof.
  induction cands as [|c rest IH]; [discriminate|].
  cbn [campo]. destruct (loc row c) as [|v [|w l]] eqn:L.
  - intros H. destruct (IH H) as (pre & c0 & post & -> & P & D).
    exists (c :: pre), c0, post. split; [reflexivity|]. split; [|exact D].
    intros c' [<-|I]; [|now apply P]. rewrite L. split; [simpl; lia|].
    intros s [v [K _]]. apply loc_In in K. now rewrite L in K.
  - destruct (notna v && negb (is_null_text (PyStr.strip (py_str v)))) eqn:E;
      [discriminate|].
    intros H. destruct (IH H) as (pre & c0 & post & -> & P & D).
    exists (c :: pre), c0, post. split; [reflexivity|]. split; [|exact D].
    intros c' [<-|I]; [|now apply P]. rewrite L. split; [simpl; lia|].
    intros s [v' [K [N [-> T]]]]. apply loc_In in K. rewrite L in K.
    destruct K as [<-|[]]. now rewrite N, T in E.
  - intros _. exists [], c, rest. split; [reflexivity|].
    split; [intros c' []|]. rewrite L. simpl. lia.
Qed.

Lemma campo_raise_at (row : Series) (pre : list string) (c : string)
    (post : list string) (d : string) :
  (forall c', In c' pre ->
              length (loc row c') <= 1 /\ forall s, ~ qualifies row c' s) ->
  2 <= length (loc row c) ->
  campo row (pre ++ c :: post) d = Raise ValueError.
Proof.
  induction pre as [|p pre IH]; intros P D.
  - simpl app. cbn [campo].
    destruct (loc row c) as [|v [|w l]]; simpl in D; try lia. reflexivity.
  - simpl app. cbn [campo].
    destruct (P p (or_introl eq_refl)) as [L Q].
    assert (IH' : campo row (pre ++ c :: post) d = Raise ValueError)
      by (apply IH; [intros c' I; apply P; now right|exact D]).
    destruct (loc row p) as [|v [|w l]] eqn:E; simpl in L; try lia; [exact IH'|].
    destruct (notna v) eqn:N; [|exact IH'].
    destruct (is_null_text (PyStr.strip (py_str v))) eqn:T; [exact IH'|].
    exfalso. apply (Q (PyStr.strip (py_str v))). exists v. repeat split; auto.
    apply loc_In. rewrite E. now left.
Qed.

(** X4.  [campo] raises exactly when the first candidate that is either
    usable or stored more than once is stored more than once: a repeated
    label raises ValueError unless an earlier candidate already gave the
    answer, and nothing else makes [campo] raise. *)
Theorem campo_raises_iff_repeated_label_reached (row : Series)
    (cands : list string) (d : string) :
  campo row cands d = Raise ValueError <->
  exists pre c post,
    cands = pre ++ c :: post
    /\ (forall c', In c' pre ->
                   length (loc row c') <= 1 /\ forall s, ~ qualifies row c' s)
    /\ 2 <= length (loc row c).
Proof.
  split.
  - apply campo_raise_split.
  - intros (pre & c & post & -> & P & D). now apply campo_raise_at.
Qed.

(** * Further properties of the loop and of the filters *)

Lemma trimmed_clean_or_empty (s : string) : s = "" \/ clean s -> trimmed s = true.
Proof. intros [->|[T _]]; [reflexivity|exact T]. Qed.

Lemma title_keeps_trimmed (s : string) :
  trimmed s = true -> trimmed (PyStr.title s) = true.
Proof.
  unfold trimmed, PyStr.title.
  now rewrite title_from_first_ok, title_from_last_ok.
Qed.

Lemma title_not_empty (s : string) : s <> "" -> PyStr.title s <> "".
Proof. destruct s; [congruence|discriminate]. Qed.

(** X5.  In every emitted record the two required fields are not empty,
    no text field starts or ends with white space, and the name is already
    in title case: title-casing it again changes nothing. *)
Theorem registro_emitido_sem_espacos (row : Series) (r : Registro) :
  processar_linha row = Ok (Some r) ->
  cnes r <> "" /\ nome r <> ""
  /\ trimmed (cnes r) = true /\ trimmed (nome r) = true
  /\ trimmed (ibge6 r) = true /\ trimmed (logradouro r) = true
  /\ trimmed (bairro r) = true
  /\ PyStr.title (nome r) = nome r.
Proof.
  intros H.
  apply processar_linha_some in H
    as (c & n & i & tp & g & l & nu & b & ce & te & H).
  destruct H as (Hc & Nc & Hn & Nn & Hi & _ & _ & Hl & Hnu & Hb & _ & _ & ->).
  assert (Cc : clean c)
    by (apply campo_result_clean in Hc as [Hc|Hc]; [contradiction|exact Hc]).
  pose proof (nome_de_clean row n Hn Nn) as Cn.
  apply campo_result_clean in Hi, Hl, Hnu, Hb.
  unfold registro_de. cbn [cnes nome ibge6 logradouro bairro].
  repeat split.
  - intros E. pose proof (zfill_length 7 c) as L. rewrite E in L.
    cbn [String.length] in L. lia.
  - now apply title_not_empty.
  - apply zfill_trimmed; [exact Nc|apply Cc].
  - apply title_keeps_trimmed, Cn.
  - destruct Hi as [->|Ci]; [reflexivity|].
    rewrite (clean_truthy i Ci). apply zfill_trimmed; [|apply Ci].
    intros ->. discriminate (clean_truthy _ Ci).
  - apply trimmed_clean_or_empty. now apply endereco_clean.
  - now apply trimmed_clean_or_empty.
  - unfold PyStr.title. apply title_from_idem.
Qed.

Lemma registro_emitido_sem_espacos_witness :
  processar_linha [("CNES", VStr " 12345 "); ("NO_FANTASIA", VStr "  upa CENTRO ");
                   ("DS_BAIRRO", VStr " Centro ")]
  = Ok (Some (registro_de "12345" "upa CENTRO" "" "02" "M" "" "" "Centro" "" ""))
  /\ trimmed (nome (registro_de "12345" "upa CENTRO" "" "02" "M" "" "" "Centro" "" ""))
     = true.
Proof.
  split; [reflexivity|].
  apply (registro_emitido_sem_espacos
           [("CNES", VStr " 12345 "); ("NO_FANTASIA", VStr "  upa CENTRO ");
            ("DS_BAIRRO", VStr " Centro ")]
           (registro_de "12345" "upa CENTRO" "" "02" "M" "" "" "Centro" "" "")
           eq_refl).
Defined.

Lemma processar_linhas_shape (rows : list Series) :
  forall acc out,
    processar_linhas rows acc = Ok out <->
    exists os,
      Forall2 (fun row o => processar_linha row = Ok o) rows os
      /\ out = acc ++ emitidos os.
Proof.
  induction rows as [|row rest IH]; intros acc out.
  - simpl. split.
    + intros H. injection H as <-. exists []. split; [constructor|].
      now rewrite app_nil_r.
    + intros [os [F ->]]. inversion F. now rewrite app_nil_r.
  - cbn [processar_linhas]. split.
    + destruct (processar_linha row) as [[r|]|] eqn:E; cbn [bind];
        try discriminate; intros H; apply IH in H as [os [F ->]].
      * exists (Some r :: os). split; [now constructor|].
        simpl. now rewrite <- app_assoc.
      * exists (None :: os). split; [now constructor|reflexivity].
    + intros [os [F ->]]. inversion F as [|x o l l' Hx Hl]; subst.
      rewrite Hx. cbn [bind]. destruct o as [r|]; apply IH; exists l'.
      * split; [exact Hl|]. simpl. now rewrite <- app_assoc.
      * split; [exact Hl|reflexivity].
Qed.

Lemma emitidos_length (os : list (option Registro)) :
  length (emitidos os) <= length os.
Proof.
  induction os as [|[r|] os IH]; simpl; lia.
Qed.

Lemma filter_length_le {A : Type} (p : A -> bool) (l : list A) :
  length (filter p l) <= length l.
Proof.
  induction l as [|a l IH]; simpl; [lia|]. destruct (p a); simpl; lia.
Qed.

Lemma linhas_filtros_le (d : DataFrame) :
  length (linhas (filtro_ativas (filtro_sus d))) <= length (linhas d).
Proof.
  assert (A : forall x, length (linhas (filtro_ativas x)) <= length (linhas x)).
  { intros x. unfold filtro_ativas. rewrite filtro_ativas_em_first.
    destruct (primeira_coluna COLS_DESATIVACAO x); [|lia].
    apply filter_length_le. }
  assert (B : length (linhas (filtro_sus d)) <= length (linhas d)).
  { unfold filtro_sus. destruct (col_gestao d) as [c|]; [|lia].
    destruct (PyStr.truthy c); [apply filter_length_le|lia]. }
  specialize (A (filtro_sus d)). lia.
Qed.

(** X6.  On a frame whose labels are distinct once upper-cased and whose
    rows are as long as the label list, [processar_df] returns the records
    of the rows left by the two filters, in row order, one for each row
    that the loop body does not skip, and nothing else; it never has more
    records than the frame has rows. *)
Theorem processar_df_one_record_per_kept_row (df : DataFrame) (uf : string) :
  frame_ok (upper_columns df) = true ->
  exists os,
    Forall2 (fun row o => processar_linha row = Ok o)
      (iterrows (filtro_ativas (filtro_sus (upper_columns df)))) os
    /\ processar_df df uf = Ok (emitidos os)
    /\ (forall regs, processar_df df uf = Ok regs <-> regs = emitidos os)
    /\ length (emitidos os) <= length (linhas df).
Proof.
  intros F. destruct (processar_df_total df uf F) as [regs H].
  pose proof H as K. unfold processar_df in K.
  apply (processar_linhas_shape _ [] regs) in K as [os [F2 E]].
  cbn [app] in E. subst regs.
  exists os. split; [exact F2|]. split; [exact H|]. split.
  - intros regs. rewrite H. split; [intros J; now injection J as <-|].
    now intros ->.
  - apply Forall2_length in F2. unfold iterrows in F2. rewrite length_map in F2.
    pose proof (emitidos_length os).
    pose proof (linhas_filtros_le (upper_columns df)) as L.
    change (linhas (upper_columns df)) with (linhas df) in L. lia.
Qed.

Lemma filter_filter_comm {A : Type} (p q : A -> bool) (l : list A) :
  filter p (filter q l) = filter q (filter p l).
Proof.
  induction l as [|a l IH]; [reflexivity|]. simpl.
  destruct (p a) eqn:P, (q a) eqn:Q; simpl; rewrite ?P, ?Q, IH; reflexivity.
Qed.

Lemma filter_idem {A : Type} (p : A -> bool) (l : list A) :
  filter p (filter p l) = filter p l.
Proof.
  induction l as [|a l IH]; [reflexivity|]. simpl.
  destruct (p a) eqn:P; simpl; rewrite ?P, IH; reflexivity.
Qed.

Lemma filter_all {A : Type} (l : list A) : filter (fun _ => true) l = l.
Proof. induction l as [|a l IH]; simpl; congruence. Qed.

Lemma filtro_sus_as_select (d : DataFrame) :
  exists p, forall x, columns x = columns d -> filtro_sus x = select x p.
Proof.
  unfold filtro_sus, col_gestao.
  destruct (find (fun c => mem c (columns d)) COLS_GESTAO) as [c|] eqn:E.
  - destruct (PyStr.truthy c) eqn:T.
    + exists (sus d c). intros x X. rewrite X, E, T. unfold sus. now rewrite X.
    + exists (fun _ => true). intros x X. rewrite X, E, T.
      destruct x as [cs ls]. unfold select. simpl.
      now rewrite filter_all.
  - exists (fun _ => true). intros x X. rewrite X, E.
    destruct x as [cs ls]. unfold select. simpl.
      now rewrite filter_all.
Qed.

Lemma filtro_ativas_as_select (d : DataFrame) :
  exists p, forall x, columns x = columns d -> filtro_ativas x = select x p.
Proof.
  unfold filtro_ativas.
  destruct (primeira_coluna COLS_DESATIVACAO d) as [c|] eqn:E.
  - exists (ativa d c). intros x X. rewrite filtro_ativas_em_first.
    unfold primeira_coluna in *. rewrite X, E. unfold ativa. now rewrite X.
  - exists (fun _ => true). intros x X. rewrite filtro_ativas_em_first.
    unfold primeira_coluna in *. rewrite X, E.
    destruct x as [cs ls]. unfold select. simpl.
      now rewrite filter_all.
Qed.

(** X7.  On a frame with distinct labels and rows as long as the label
    list, the two table-level filters can be applied in either order with
    the same result, and applying one of them twice is applying it once:
    each looks at its own column only and neither changes the columns. *)
Theorem filtros_comutam (d : DataFrame) :
  frame_ok d = true ->
  filtro_ativas (filtro_sus d) = filtro_sus (filtro_ativas d)
  /\ filtro_sus (filtro_sus d) = filtro_sus d
  /\ filtro_ativas (filtro_ativas d) = filtro_ativas d.
Proof.
  intros _.
  destruct (filtro_sus_as_select d) as [p P].
  destruct (filtro_ativas_as_select d) as [q Q].
  rewrite (P d eq_refl), (Q d eq_refl).
  rewrite (Q (select d p) eq_refl), (P (select d q) eq_refl).
  rewrite (P (select d p) eq_refl), (Q (select d q) eq_refl).
  unfold select. simpl. repeat split; f_equal.
  - apply filter_filter_comm.
  - apply filter_idem.
  - apply filter_idem.
Qed.

Lemma processar_linhas_concat (a b : list Series) :
  forall acc,
    processar_linhas (a ++ b) acc
    = (out <- processar_linhas a acc ;; processar_linhas b out).
Proof.
  induction a as [|row a IH]; intros acc; [reflexivity|].
  simpl app. cbn [processar_linhas].
  destruct (processar_linha row) as [[r|]|]; cbn [bind]; auto.
Qed.

Lemma iterrows_filtros_app (cols : list string) (l1 l2 : list (list value)) :
  iterrows (filtro_ativas (filtro_sus (upper_columns (mkDataFrame cols (l1 ++ l2)))))
  = iterrows (filtro_ativas (filtro_sus (upper_columns (mkDataFrame cols l1))))
    ++ iterrows (filtro_ativas (filtro_sus (upper_columns (mkDataFrame cols l2)))).
Proof.
  destruct (filtro_sus_as_select (upper_columns (mkDataFrame cols (l1 ++ l2))))
    as [p P].
  destruct (filtro_ativas_as_select (upper_columns (mkDataFrame cols (l1 ++ l2))))
    as [q Q].
  rewrite (P (upper_columns (mkDataFrame cols (l1 ++ l2))) eq_refl).
  rewrite (P (upper_columns (mkDataFrame cols l1)) eq_refl).
  rewrite (P (upper_columns (mkDataFrame cols l2)) eq_refl).
  rewrite !Q by reflexivity.
  unfold iterrows, select, upper_columns. simpl.
  now rewrite !filter_app, map_app.
Qed.

(** X8.  Rows are processed independently of one another: for frames with
    the same columns, distinct once upper-cased, the records of the rows
    of one followed by the rows of the other are the records of the first
    followed by the records of the second. *)
Theorem processar_df_concatena (cols : list string) (l1 l2 : list (list value))
    (uf : string) (r1 r2 : list Registro) :
  frame_ok (upper_columns (mkDataFrame cols (l1 ++ l2))) = true ->
  processar_df (mkDataFrame cols l1) uf = Ok r1 ->
  processar_df (mkDataFrame cols l2) uf = Ok r2 ->
  processar_df (mkDataFrame cols (l1 ++ l2)) uf = Ok (r1 ++ r2).
Proof.
  unfold processar_df. intros _ H1 H2.
  rewrite iterrows_filtros_app, processar_linhas_concat, H1. cbn [bind].
  now apply processar_linhas_app.
Qed.

Lemma processar_df_concatena_witness :
  frame_ok (upper_columns
              (mkDataFrame ["cnes"; "no_fantasia"]
                 ([[VStr "1"; VStr "UBS A"]]
                  ++ [[VNull; VStr "UBS B"]; [VStr "3"; VStr "UBS C"]]))) = true
  /\ processar_df (mkDataFrame ["cnes"; "no_fantasia"]
                     [[VStr "1"; VStr "UBS A"]]) "RJ"
  = Ok [registro_de "1" "UBS A" "" "02" "M" "" "" "" "" ""]
  /\ processar_df (mkDataFrame ["cnes"; "no_fantasia"]
                     [[VNull; VStr "UBS B"]; [VStr "3"; VStr "UBS C"]]) "RJ"
     = Ok [registro_de "3" "UBS C" "" "02" "M" "" "" "" "" ""]
  /\ processar_df (mkDataFrame ["cnes"; "no_fantasia"]
                     ([[VStr "1"; VStr "UBS A"]]
                      ++ [[VNull; VStr "UBS B"]; [VStr "3"; VStr "UBS C"]])) "RJ"
     = Ok ([registro_de "1" "UBS A" "" "02" "M" "" "" "" "" ""]
           ++ [registro_de "3" "UBS C" "" "02" "M" "" "" "" "" ""]).
Proof.
  split; [reflexivity|]. split; [reflexivity|]. split; [reflexivity|].
  apply (processar_df_concatena ["cnes"; "no_fantasia"]
           [[VStr "1"; VStr "UBS A"]]
           [[VNull; VStr "UBS B"]; [VStr "3"; VStr "UBS C"]] "RJ"
           [registro_de "1" "UBS A" "" "02" "M" "" "" "" "" ""]
           [registro_de "3" "UBS C" "" "02" "M" "" "" "" "" ""]
           eq_refl eq_refl eq_refl).
Defined.

Lemma upper_char_idem (a : ascii) :
  PyStr.upper_char (PyStr.upper_char a) = PyStr.upper_char a.
Proof. each_char a. Qed.

Lemma upper_idem (s : string) : PyStr.upper (PyStr.upper s) = PyStr.upper s.
Proof.
  unfold PyStr.upper. induction s as [|a s IH]; simpl; [reflexivity|].
  now rewrite upper_char_idem, IH.
Qed.

(** X9.  The case of the column labels does not matter: two frames with
    the same rows whose labels agree once upper-cased give the same result,
    exceptions included, and upper-casing the labels beforehand changes
    nothing. *)
Theorem processar_df_ignora_caixa (d1 d2 : DataFrame) (uf : string) :
  map PyStr.upper (columns d1) = map PyStr.upper (columns d2) ->
  linhas d1 = linhas d2 ->
  processar_df d1 uf = processar_df d2 uf
  /\ processar_df (upper_columns d1) uf = processar_df d1 uf.
Proof.
  intros C L.
  assert (E : forall a b, map PyStr.upper (columns a) = map PyStr.upper (columns b) ->
                          linhas a = linhas b -> upper_columns a = upper_columns b)
    by (intros a b Ca La; unfold upper_columns; now rewrite Ca, La).
  unfold processar_df. split.
  - now rewrite (E d1 d2 C L).
  - rewrite (E (upper_columns d1) d1); [reflexivity| |reflexivity].
    unfold upper_columns. simpl. rewrite map_map.
    apply map_ext. intros c. apply upper_idem.
Qed.

Lemma processar_df_ignora_caixa_witness :
  map PyStr.upper (columns (mkDataFrame ["Cnes"; "no_FANTASIA"]
                              [[VStr "1"; VStr "UBS A"]]))
  = map PyStr.upper (columns (mkDataFrame ["CNES"; "NO_FANTASIA"]
                                [[VStr "1"; VStr "UBS A"]]))
  /\ processar_df (mkDataFrame ["Cnes"; "no_FANTASIA"] [[VStr "1"; VStr "UBS A"]]) "RJ"
     = processar_df (mkDataFrame ["CNES"; "NO_FANTASIA"] [[VStr "1"; VStr "UBS A"]]) "RJ".
Proof.
  split; [reflexivity|].
  apply (processar_df_ignora_caixa
           (mkDataFrame ["Cnes"; "no_FANTASIA"] [[VStr "1"; VStr "UBS A"]])
           (mkDataFrame ["CNES"; "NO_FANTASIA"] [[VStr "1"; VStr "UBS A"]])
           "RJ" eq_refl eq_refl).
Defined.

Lemma primeira_coluna_split (aliases : list string) (d : DataFrame) (c : string) :
  primeira_coluna aliases d = Some c ->
  exists pre post,
    aliases = pre ++ c :: post /\ forall p, In p pre -> ~ In p (columns d).
Proof.
  unfold primeira_coluna. induction aliases as [|a aliases IH]; [discriminate|].
  simpl. destruct (mem a (columns d)) eqn:E.
  - intros H. injection H as <-. exists [], aliases. split; [reflexivity|].
    intros p [].
  - intros H. destruct (IH H) as (pre & post & -> & P).
    exists (a :: pre), post. split; [reflexivity|].
    intros p [<-|I]; [now apply mem_false|now apply P].
Qed.

Lemma campo_absent_prefix (row : Series) (pre rest : list string) (d : string) :
  (forall p, In p pre -> loc row p = []) ->
  campo row (pre ++ rest) d = campo row rest d.
Proof.
  induction pre as [|p pre IH]; intros H; [reflexivity|].
  simpl app. rewrite campo_absent by (apply H; now left).
  apply IH. intros q I. apply H. now right.
Qed.

Lemma columns_filtros (d : DataFrame) :
  columns (filtro_ativas (filtro_sus d)) = columns d.
Proof.
  destruct (filtro_sus_as_select d) as [p P].
  destruct (filtro_ativas_as_select d) as [q Q].
  now rewrite (P d eq_refl), (Q (select d p) eq_refl).
Qed.

Lemma linhas_filtro_ativas_In (d : DataFrame) (cells : list value) :
  In cells (linhas (filtro_ativas d)) -> In cells (linhas d).
Proof.
  destruct (filtro_ativas_as_select d) as [q Q]. rewrite (Q d eq_refl).
  unfold select. simpl. intros H. now apply filter_In in H.
Qed.

Lemma gestao_sus_clean (s : string) : In s ["M"; "E"; "D"] -> clean s.
Proof. intros [<-|[<-|[<-|[]]]]; now split. Qed.

(** X10.  When the frame has a governance column, every row that reaches
    the loop holds M, E or D in it, the loop resolves the governance code
    to exactly that cell, and the label of the emitted record is the entry
    of the label table for it: neither the default code M nor the default
    label for unmapped codes is ever used on such a frame. *)
Theorem gestao_vem_da_coluna_filtrada (d : DataFrame) (c : string) (row : Series) :
  frame_ok d = true ->
  primeira_coluna COLS_GESTAO d = Some c ->
  In row (iterrows (filtro_ativas (filtro_sus d))) ->
  exists s,
    In (c, VStr s) row /\ In s ["M"; "E"; "D"]
    /\ campo row COLS_GESTAO "M" = Ok s
    /\ forall r, processar_linha row = Ok (Some r) ->
                 In (s, gestao r) GESTAO_ROTULO.
Proof.
  intros F H I.
  unfold iterrows in I. apply in_map_iff in I as [cells [<- I]].
  rewrite columns_filtros.
  apply linhas_filtro_ativas_In in I.
  pose proof (primeira_coluna_some _ _ _ H) as [A C].
  assert (S : filtro_sus d = select d (sus d c)).
  { unfold filtro_sus, col_gestao. unfold primeira_coluna in H.
    now rewrite H, (alias_gestao_truthy c A). }
  rewrite S in I. unfold select in I. simpl in I.
  apply filter_In in I as [I K].
  apply (sus_spec d c cells F I C) in K as [s [V M]].
  destruct (frame_ok_row d cells F I) as [X U].
  exists s. split; [exact V|]. split; [exact M|].
  assert (G : campo (row_of (columns d) cells) COLS_GESTAO "M" = Ok s).
  { destruct (primeira_coluna_split _ _ _ H) as (pre & post & -> & P).
    rewrite campo_absent_prefix.
    - apply campo_hit_clean; [now apply loc_the|now apply gestao_sus_clean].
    - intros p Ip. apply loc_absent, mem_false. rewrite X. now apply P. }
  split; [exact G|].
  intros r E.
  apply processar_linha_some in E
    as (c' & n & i & tp & g & l & nu & b & ce & te & E).
  destruct E as (_ & _ & _ & _ & _ & _ & Hg & _ & _ & _ & _ & _ & ->).
  rewrite G in Hg. injection Hg as <-.
  unfold registro_de. cbn [gestao].
  destruct M as [<-|[<-|[<-|[]]]]; simpl; auto.
Qed.

Lemma gestao_vem_da_coluna_filtrada_witness :
  frame_ok (mkDataFrame ["CNES"; "NO_FANTASIA"; "TPGESTAO"]
              [[VStr "1"; VStr "UBS A"; VStr "D"];
               [VStr "2"; VStr "UBS B"; VStr "X"]]) = true
  /\ exists s,
      In ("TPGESTAO", VStr s)
         [("CNES", VStr "1"); ("NO_FANTASIA", VStr "UBS A"); ("TPGESTAO", VStr "D")]
      /\ In s ["M"; "E"; "D"].
Proof.
  split; [reflexivity|].
  destruct (gestao_vem_da_coluna_filtrada
              (mkDataFrame ["CNES"; "NO_FANTASIA"; "TPGESTAO"]
                 [[VStr "1"; VStr "UBS A"; VStr "D"];
                  [VStr "2"; VStr "UBS B"; VStr "X"]])
              "TPGESTAO"
              [("CNES", VStr "1"); ("NO_FANTASIA", VStr "UBS A");
               ("TPGESTAO", VStr "D")]
              eq_refl eq_refl (or_introl eq_refl)) as [s [H1 [H2 _]]].
  exists s. split; assumption.
Defined.

(** X11.  On a frame whose labels are distinct once upper-cased and whose
    rows are as long as the label list, [processar_df] raises nothing: it
    returns a list, with at most one record per row of the frame. *)
Theorem processar_df_nao_levanta (df : DataFrame) (uf : string) :
  frame_ok (upper_columns df) = true ->
  exists registros,
    processar_df df uf = Ok registros
    /\ length registros <= length (linhas df).
Proof.
  intros F. destruct (processar_df_total df uf F) as [regs H].
  exists regs. split; [exact H|].
  unfold processar_df in H.
  apply (processar_linhas_shape _ [] regs) in H as [os [F2 ->]].
  apply Forall2_length in F2. unfold iterrows in F2. rewrite length_map in F2.
  pose proof (emitidos_length os).
  pose proof (linhas_filtros_le (upper_columns df)) as L.
  change (linhas (upper_columns df)) with (linhas df) in L.
  simpl. lia.
Qed.

Lemma processar_df_nao_levanta_witness :
  frame_ok (upper_columns (mkDataFrame ["cnes"; "no_fantasia"]
                             [[VStr "1"; VStr "UBS A"]; [VNull; VStr "UBS B"]]))
  = true
  /\ exists registros,
      processar_df (mkDataFrame ["cnes"; "no_fantasia"]
                      [[VStr "1"; VStr "UBS A"]; [VNull; VStr "UBS B"]]) "RJ"
      = Ok registros
      /\ length registros <= 2.
Proof.
  split; [reflexivity|].
  apply (processar_df_nao_levanta
           (mkDataFrame ["cnes"; "no_fantasia"]
              [[VStr "1"; VStr "UBS A"]; [VNull; VStr "UBS B"]]) "RJ" eq_refl).
Defined.

(** * The calendar and the reference month *)

Lemma valid_bounds (d : PyDate.date) :
  PyDate.valid d = true ->
  (1 <= PyDate.year d <= 9999)%Z
  /\ 1 <= PyDate.month d <= 12
  /\ 1 <= PyDate.day d <= PyDate.days_in_month (PyDate.year d) (PyDate.month d).
Proof.
  unfold PyDate.valid. intros H.
  repeat (apply andb_true_iff in H as [H ?]).
  repeat match goal with
         | K : (_ <=? _)%Z = true |- _ => apply Z.leb_le in K
         | K : (_ <=? _) = true |- _ => apply Nat.leb_le in K
         end.
  lia.
Qed.

Lemma dim_rel_sound (y k : Z) (m l : nat) :
  dim_rel (PyDate.is_leap y) k m = Some l ->
  PyDate.days_in_month (y + k) m = l.
Proof.
  unfold dim_rel, PyDate.days_in_month.
  destruct m as [|[|[|m]]]; try (intros H; injection H as <-; reflexivity).
  - destruct (Z.eqb_spec k 0) as [->|_]; [|discriminate].
    rewrite Z.add_0_r. intros H. now injection H as <-.
  - do 9 (destruct m as [|m]; [intros H; injection H as <-; reflexivity|]).
    intros H. now injection H as <-.
Qed.

Lemma yesterday_rel_sound (y : Z) (st st' : rel) :
  yesterday_rel (PyDate.is_leap y) st = Some st' ->
  PyDate.yesterday (embed y st) = embed y st'.
Proof.
  destruct st as [[k m] d]. unfold yesterday_rel, PyDate.yesterday, embed.
  cbn [PyDate.year PyDate.month PyDate.day].
  destruct (1 <? d); [intros H; now injection H as <-|].
  destruct (1 <? m).
  - destruct (dim_rel (PyDate.is_leap y) k (m - 1)) as [l|] eqn:E; [|discriminate].
    intros H. injection H as <-. now rewrite (dim_rel_sound y k (m - 1) l E).
  - intros H. injection H as <-. f_equal. lia.
Qed.

Lemma days_before_rel_sound (y : Z) (n : nat) :
  forall st st',
    days_before_rel (PyDate.is_leap y) n st = Some st' ->
    PyDate.days_before n (embed y st) = embed y st'.
Proof.
  induction n as [|n IH]; intros st st'; simpl.
  - intros H. now injection H as <-.
  - destruct (yesterday_rel (PyDate.is_leap y) st) as [st1|] eqn:E; [|discriminate].
    intros H. rewrite (yesterday_rel_sound y st st1 E). now apply IH.
Qed.

Lemma lag_ok_all (leap : bool) :
  forallb (fun m =>
             forallb (fun d =>
                        match dim_rel leap 0 m with
                        | Some l => (l <? d) || lag_ok leap m d
                        | None => false
                        end) (seq 1 31)) (seq 1 12) = true.
Proof. destruct leap; vm_compute; reflexivity. Qed.

Lemma lag_ok_valid (y : Z) (m d : nat) :
  1 <= m <= 12 -> 1 <= d <= PyDate.days_in_month y m ->
  lag_ok (PyDate.is_leap y) m d = true.
Proof.
  intros Hm Hd. pose proof (lag_ok_all (PyDate.is_leap y)) as A.
  rewrite forallb_forall in A.
  assert (Im : In m (seq 1 12)) by (apply in_seq; lia).
  specialize (A m Im). rewrite forallb_forall in A.
  assert (L : PyDate.days_in_month y m <= 31).
  { unfold PyDate.days_in_month.
    do 13 (destruct m as [|m]; [try (destruct (PyDate.is_leap y)); lia|]). lia. }
  assert (Id : In d (seq 1 31)) by (apply in_seq; lia).
  specialize (A d Id).
  destruct (dim_rel (PyDate.is_leap y) 0 m) as [l|] eqn:E; [|discriminate].
  apply dim_rel_sound in E. rewrite Z.add_0_r in E.
  apply orb_true_iff in A as [A|A]; [|exact A].
  apply Nat.ltb_lt in A. lia.
Qed.

(** X12.  For a valid clock date from year 2 on, [get_competencia] returns
    a month 1 to 12 that lies one, two or three calendar months before the
    month of the clock, never the same month; it lies three months before
    exactly on the first day of March or of April of a year that is not a
    leap year. *)
Theorem get_competencia_defasagem (agora : PyDate.date) :
  PyDate.valid agora = true ->
  (2 <= PyDate.year agora)%Z ->
  exists y' m',
    get_competencia agora = Some (y', m')
    /\ 1 <= m' <= 12
    /\ (1 <= 12 * (PyDate.year agora - y') + Z.of_nat (PyDate.month agora)
             - Z.of_nat m' <= 3)%Z
    /\ ((12 * (PyDate.year agora - y') + Z.of_nat (PyDate.month agora)
         - Z.of_nat m' = 3)%Z
        <-> PyDate.is_leap (PyDate.year agora) = false
            /\ PyDate.day agora = 1
            /\ (PyDate.month agora = 3 \/ PyDate.month agora = 4)).
Proof.
  destruct agora as [y m d]. intros V Y.
  apply valid_bounds in V. cbn [PyDate.year PyDate.month PyDate.day] in *.
  destruct V as (_ & Hm & Hd).
  pose proof (lag_ok_valid y m d Hm Hd) as K. unfold lag_ok in K.
  destruct (days_before_rel (PyDate.is_leap y) 60 (0%Z, m, d))
    as [[[k' m'] d']|] eqn:E; [|discriminate].
  apply days_before_rel_sound in E. unfold embed in E. rewrite Z.add_0_r in E.
  repeat (apply andb_true_iff in K as [K ?]).
  repeat match goal with
         | H : (_ <=? _)%Z = true |- _ => apply Z.leb_le in H
         | H : (_ <=? _) = true |- _ => apply Nat.leb_le in H
         | H : Bool.eqb _ _ = true |- _ => apply Bool.eqb_prop in H
         end.
  exists (y + k')%Z, m'.
  unfold get_competencia, PyDate.sub_days. rewrite E.
  cbn [PyDate.year PyDate.month].
  destruct (Z.leb_spec 1 (y + k')) as [_|B]; [|lia].
  split; [reflexivity|]. split; [lia|].
  replace (12 * (y - (y + k')) + Z.of_nat m - Z.of_nat m')%Z
    with (12 * - k' + Z.of_nat m - Z.of_nat m')%Z by lia.
  split; [lia|].
  match goal with
  | H : (_ =? 3)%Z = _ |- _ => rename H into Q
  end.
  split.
  - intros L3. apply Z.eqb_eq in L3. rewrite L3 in Q. symmetry in Q.
    apply andb_true_iff in Q as [Q Q3]. apply andb_true_iff in Q as [Q1 Q2].
    apply negb_true_iff in Q1. apply Nat.eqb_eq in Q2.
    apply orb_true_iff in Q3 as [Q3|Q3]; apply Nat.eqb_eq in Q3; auto.
  - intros (L & D & M). apply Z.eqb_eq. rewrite Q, L, D.
    destruct M as [-> | ->]; reflexivity.
Qed.

Lemma get_competencia_defasagem_witness :
  PyDate.valid (PyDate.mkDate 2025 3 1) = true
  /\ (2 <= PyDate.year (PyDate.mkDate 2025 3 1))%Z
  /\ exists y' m',
      get_competencia (PyDate.mkDate 2025 3 1) = Some (y', m')
      /\ 1 <= m' <= 12.
Proof.
  split; [reflexivity|]. split; [simpl; lia|].
  destruct (get_competencia_defasagem (PyDate.mkDate 2025 3 1) eq_refl)
    as (y' & m' & H & B & _); [simpl; lia|].
  exists y', m'. split; assumption.
Defined.

Lemma days_in_month_pos (y : Z) (m : nat) : 1 <= PyDate.days_in_month y m.
Proof.
  unfold PyDate.days_in_month.
  do 13 (destruct m as [|m]; [try (destruct (PyDate.is_leap y)); lia|]). lia.
Qed.

Lemma make_first (y : Z) (m : nat) :
  (1 <= y <= 9999)%Z -> 1 <= m <= 12 ->
  PyDate.make y m 1 = Some (PyDate.mkDate y m 1).
Proof.
  intros Hy Hm. unfold PyDate.make, PyDate.valid.
  cbn [PyDate.year PyDate.month PyDate.day].
  rewrite (proj2 (Z.leb_le 1 y)) by lia.
  rewrite (proj2 (Z.leb_le y 9999)) by lia.
  rewrite (proj2 (Nat.leb_le 1 m)) by lia.
  rewrite (proj2 (Nat.leb_le m 12)) by lia.
  rewrite (proj2 (Nat.leb_le 1 (PyDate.days_in_month y m)))
    by apply days_in_month_pos.
  reflexivity.
Qed.

Lemma make_invalid (y : Z) (m d : nat) :
  ~ ((1 <= y <= 9999)%Z /\ 1 <= m <= 12) -> PyDate.make y m d = None.
Proof.
  intros N. unfold PyDate.make, PyDate.valid.
  cbn [PyDate.year PyDate.month PyDate.day].
  destruct (Z.leb_spec 1 y); [|reflexivity].
  destruct (Z.leb_spec y 9999); [|reflexivity].
  destruct (Nat.leb_spec 1 m); [|reflexivity].
  destruct (Nat.leb_spec m 12); [|reflexivity].
  exfalso. apply N. lia.
Qed.

Lemma yesterday_first (y : Z) (m : nat) :
  PyDate.yesterday (PyDate.mkDate y m 1)
  = if 1 <? m
    then PyDate.mkDate y (m - 1) (PyDate.days_in_month y (m - 1))
    else PyDate.mkDate (y - 1) 12 31.
Proof. reflexivity. Qed.

(** X13.  The fall-back period of [download_uf] is the calendar month
    before the requested one, December of the year before for January.
    For a month outside 1 to 12 or a year outside 1 to 9999 the date cannot
    be built, and for January of year 1 there is no month before: both
    come out as an exception. *)
Theorem competencia_anterior_mes (y : Z) (m : nat) :
  ((1 <= y <= 9999)%Z -> 1 <= m <= 12 ->
   competencia_anterior y m
   = if m =? 1 then (if (y =? 1)%Z then None else Some ((y - 1)%Z, 12))
     else Some (y, m - 1))
  /\ (~ ((1 <= y <= 9999)%Z /\ 1 <= m <= 12) -> competencia_anterior y m = None).
Proof.
  unfold competencia_anterior. split.
  - intros Hy Hm. rewrite (make_first y m Hy Hm).
    unfold PyDate.sub_days. cbn [PyDate.days_before].
    rewrite yesterday_first.
    destruct (Nat.eqb_spec m 1) as [->|N].
    + change (1 <? 1) with false. cbv iota. cbn [PyDate.year PyDate.month].
      destruct (Z.eqb_spec y 1) as [->|Ny]; [reflexivity|].
      now rewrite (proj2 (Z.leb_le 1 (y - 1))) by lia.
    + rewrite (proj2 (Nat.ltb_lt 1 m)) by lia. cbn [PyDate.year PyDate.month].
      now rewrite (proj2 (Z.leb_le 1 y)) by lia.
  - intros N. now rewrite (make_invalid y m 1 N).
Qed.

(** * Retrieval *)

Section RetrievalFacts.

Variable File : Type.
Variable carregar_nova : attempt unit.
Variable get_files : string -> Z -> nat -> attempt (list File).
Variable download_novo : File -> attempt DataFrame.
Variable importar_antiga : attempt unit.
Variable download_antigo : string -> Z -> nat -> attempt (option DataFrame).

Let baixar := download_uf File carregar_nova get_files download_novo
                importar_antiga download_antigo.
Let nova := tentativa_nova File carregar_nova get_files download_novo.
Let antiga := tentativa_antiga importar_antiga download_antigo.

Lemma tentar_some (uf : string) (y : Z) (m : nat) (df : DataFrame) :
  tentar File get_files download_novo uf y m = Got (Some df) ->
  exists f fs, get_files uf y m = Got (f :: fs) /\ download_novo f = Got df.
Proof.
  unfold tentar, and_then.
  destruct (get_files uf y m) as [[|f fs]|]; try discriminate.
  destruct (download_novo f) as [r|] eqn:E; [|discriminate].
  intros H. injection H as ->. now exists f, fs.
Qed.

Lemma tentar_none (uf : string) (y : Z) (m : nat) :
  tentar File get_files download_novo uf y m = Got None ->
  get_files uf y m = Got [].
Proof.
  unfold tentar, and_then.
  destruct (get_files uf y m) as [[|f fs]|]; try discriminate; [reflexivity|].
  destruct (download_novo f); discriminate.
Qed.

(** X14.  When pysus >= 0.4 loads and lists files for the requested
    period, [download_uf] returns what the download of the first file
    gives, whatever the other files, the previous period and the old
    interface hold, and even if that frame is empty. *)
Theorem download_uf_first_file_wins (uf : string) (year : Z) (month : nat)
    (f : File) (fs : list File) (df : DataFrame) :
  carregar_nova = Got tt ->
  get_files uf year month = Got (f :: fs) ->
  download_novo f = Got df ->
  baixar uf year month = Some df.
Proof.
  intros C G D. unfold baixar, download_uf, tentativa_nova, tentar, and_then.
  now rewrite C, G, D.
Qed.

Lemma tentativa_antiga_some (uf : string) (year : Z) (month : nat)
    (df : DataFrame) :
  antiga uf year month = Got (Some df) ->
  (download_antigo uf year month = Got (Some df) /\ empty df = false)
  \/ (exists p,
        competencia_anterior year month = Some p
        /\ download_antigo uf (fst p) (snd p) = Got (Some df)
        /\ empty df = false).
Proof.
  unfold antiga, tentativa_antiga, and_then.
  destruct importar_antiga; [|discriminate].
  destruct (download_antigo uf year month) as [d|] eqn:A; [|discriminate].
  destruct (usable d) eqn:U.
  - destruct d as [d|]; [|discriminate]. intros H. injection H as ->.
    left. split; [reflexivity|]. now apply negb_true_iff in U.
  - destruct (competencia_anterior year month) as [p|]; [|discriminate].
    cbn [of_option].
    destruct (download_antigo uf (fst p) (snd p)) as [d'|] eqn:A'; [|discriminate].
    destruct (usable d') eqn:U'; [|discriminate].
    destruct d' as [d'|]; [|discriminate]. intros H. injection H as ->.
    right. exists p. split; [reflexivity|]. split; [exact A'|].
    now apply negb_true_iff in U'.
Qed.

Lemma baixar_por_antiga (uf : string) (year : Z) (month : nat) (df : DataFrame) :
  match antiga uf year month with
  | Got (Some d) => Some d
  | _ => None
  end = Some df ->
  antiga uf year month = Got (Some df).
Proof.
  destruct (antiga uf year month) as [[d|]|]; try discriminate.
  intros H. now injection H as ->.
Qed.

(** X15.  A frame returned by [download_uf] was produced for the requested
    period or for the month before it, never for another period: by the
    first file of pysus >= 0.4 for the requested period; or, when that
    period has no file, by the first file of the month before; or by the
    old interface for one of the two periods, and then it is not empty. *)
Theorem download_uf_source (uf : string) (year : Z) (month : nat)
    (df : DataFrame) :
  baixar uf year month = Some df ->
  (exists f fs, get_files uf year month = Got (f :: fs)
                /\ download_novo f = Got df)
  \/ (get_files uf year month = Got []
      /\ exists p f fs,
          competencia_anterior year month = Some p
          /\ get_files uf (fst p) (snd p) = Got (f :: fs)
          /\ download_novo f = Got df)
  \/ (download_antigo uf year month = Got (Some df) /\ empty df = false)
  \/ (exists p,
        competencia_anterior year month = Some p
        /\ download_antigo uf (fst p) (snd p) = Got (Some df)
        /\ empty df = false).
Proof.
  unfold baixar, download_uf. fold nova. fold antiga.
  destruct (nova uf year month) as [[d|]|] eqn:N.
  - intros H. injection H as ->.
    unfold nova, tentativa_nova, and_then in N.
    destruct carregar_nova; [|discriminate].
    destruct (tentar File get_files download_novo uf year month)
      as [[d|]|] eqn:T; [| |discriminate].
    + injection N as ->. left. now apply tentar_some.
    + right. left. split; [now apply tentar_none|].
      destruct (competencia_anterior year month) as [p|]; [|discriminate].
      cbn [of_option] in N. apply tentar_some in N as (f & fs & G & D).
      now exists p, f, fs.
  - intros H. apply baixar_por_antiga, tentativa_antiga_some in H.
    right. right. exact H.
  - intros H. apply baixar_por_antiga, tentativa_antiga_some in H.
    right. right. exact H.
Qed.

(** X16.  An exception of pysus >= 0.4 on the requested period ends the
    use of that interface: its files for the month before are not tried,
    and [download_uf] returns what the old interface alone gives, a frame
    that is not empty or nothing. *)
Theorem download_uf_exception_abandons_new (uf : string) (year : Z) (month : nat) :
  carregar_nova = Threw
  \/ get_files uf year month = Threw
  \/ (exists f fs, get_files uf year month = Got (f :: fs)
                   /\ download_novo f = Threw) ->
  baixar uf year month
  = match antiga uf year month with
    | Got (Some df) => Some df
    | _ => None
    end
  /\ forall df, baixar uf year month = Some df -> empty df = false.
Proof.
  intros H.
  assert (N : nova uf year month = Threw).
  { unfold nova, tentativa_nova, tentar, and_then.
    destruct H as [E|[E|(f & fs & E & E')]]; rewrite ?E, ?E'.
    - reflexivity.
    - now destruct carregar_nova.
    - now destruct carregar_nova. }
  assert (E : baixar uf year month
              = match antiga uf year month with
                | Got (Some df) => Some df
                | _ => None
                end).
  { unfold baixar, download_uf. fold nova. fold antiga. now rewrite N. }
  split; [exact E|].
  intros df B. rewrite E in B.
  apply baixar_por_antiga, tentativa_antiga_some in B.
  destruct B as [[_ B]|[p [_ [_ B]]]]; exact B.
Qed.

End RetrievalFacts.

(** * The orchestrator *)

Lemma dict_set_fresh {V : Type} (d : list (string * V)) (k : string) (v : V) :
  ~ In k (map fst d) -> dict_set d k v = d ++ [(k, v)].
Proof.
  induction d as [|[k' v'] d IH]; simpl; [reflexivity|].
  intros N. destruct (String.eqb_spec k' k) as [->|_]; [tauto|].
  rewrite IH; [reflexivity|tauto].
Qed.

Lemma append_cancel_r (s t u : string) : (s ++ u = t ++ u)%string -> s = t.
Proof.
  revert t. induction s as [|a s IH]; intros [|b t] H; simpl in H.
  - reflexivity.
  - exfalso. apply (f_equal String.length) in H. simpl in H.
    rewrite length_app in H. lia.
  - exfalso. apply (f_equal String.length) in H. simpl in H.
    rewrite length_app in H. lia.
  - injection H as -> H. f_equal. now apply IH.
Qed.

Lemma soma_list_sum (d : list (string * nat)) : soma d = list_sum (map snd d).
Proof.
  unfold soma.
  assert (G : forall l a, fold_left Nat.add l a = a + list_sum l).
  { induction l as [|x l IH]; intros a; simpl; [lia|]. rewrite IH. lia. }
  now rewrite G.
Qed.

Section MainFacts.

Variable baixar : string -> Z -> nat -> option DataFrame.
Variable year : Z.
Variable month : nat.

Lemma main_loop_done (ufs : list string) :
  forall st st',
    NoDup ufs ->
    (forall u, In u ufs -> ~ In u (map fst (resumo st))) ->
    main_loop baixar year month ufs st = (st', None) ->
    resumo st' = resumo st ++ map (fun u => (u, contagem baixar year month u)) ufs
    /\ falhas st' = falhas st ++ filter (sem_dados baixar year month) ufs
    /\ (forall u, In u ufs ->
        (baixar u year month = None ->
         dir st' (u ++ ".json")%string = dir st (u ++ ".json")%string)
        /\ (forall df, baixar u year month = Some df ->
            exists regs,
              processar_df df u = Ok regs
              /\ dir st' (u ++ ".json")%string = Some (ArqRegistros regs)))
    /\ (forall name, (forall u, In u ufs -> name <> (u ++ ".json")%string) ->
        dir st' name = dir st name).
Proof.
  induction ufs as [|uf rest IH]; intros st st' ND FR H.
  - simpl in H. injection H as <-. cbn [map filter]. rewrite !app_nil_r.
    split; [reflexivity|]. split; [reflexivity|].
    split; [intros u []|]. intros name _. reflexivity.
  - cbn [main_loop] in H.
    inversion ND as [|x l NI ND' E]; subst.
    assert (FR0 : ~ In uf (map fst (resumo st))) by (apply FR; now left).
    assert (FR1 : forall n u, In u rest ->
                  ~ In u (map fst (resumo st ++ [(uf, n)]))).
    { intros n u I. rewrite map_app, in_app_iff. simpl.
      intros [K|[K|[]]]; [apply (FR u); [now right|exact K]|].
      subst u. contradiction. }
    unfold contagem, sem_dados. cbn [map filter].
    destruct (baixar uf year month) as [df|] eqn:B.
    + destruct (processar_df df uf) as [regs|e] eqn:P; [|discriminate].
      rewrite (dict_set_fresh _ _ _ FR0) in H.
      apply IH in H; [|exact ND'|apply FR1]. cbn [dir resumo falhas] in H.
      destruct H as (R & F & D & O).
      split; [rewrite R, <- app_assoc; reflexivity|].
      split; [exact F|]. split.
      * intros u [<-|I].
        -- split; [intros K; rewrite K in B; discriminate|].
           intros df' K. rewrite B in K. injection K as <-.
           exists regs. split; [exact P|].
           rewrite O.
           ++ unfold escrever. now rewrite String.eqb_refl.
           ++ intros u I E. apply append_cancel_r in E. now subst u.
        -- destruct (D u I) as [D1 D2]. split.
           ++ intros K. rewrite (D1 K). unfold escrever.
              destruct (String.eqb_spec (u ++ ".json")%string (uf ++ ".json")%string) as [E|_];
                [|reflexivity].
              apply append_cancel_r in E. now subst u.
           ++ exact D2.
      * intros name N. rewrite O by (intros u I; apply N; now right).
        unfold escrever.
        destruct (String.eqb_spec name (uf ++ ".json")%string) as [E|_]; [|reflexivity].
        exfalso. apply (N uf); [now left|exact E].
    + rewrite (dict_set_fresh _ _ _ FR0) in H.
      apply IH in H; [|exact ND'|apply FR1]. cbn [dir resumo falhas] in H.
      destruct H as (R & F & D & O).
      split; [rewrite R, <- app_assoc; reflexivity|].
      split; [rewrite F, <- app_assoc; reflexivity|]. split.
      * intros u [<-|I].
        -- split; [|intros df' K; rewrite B in K; discriminate].
           intros _. apply O. intros u I E. apply append_cancel_r in E.
           now subst u.
        -- exact (D u I).
      * intros name N. apply O. intros u I. apply N. now right.
Qed.

Lemma main_loop_abort (ufs : list string) :
  forall st st' e,
    main_loop baixar year month ufs st = (st', Some e) ->
    exists pre uf post df,
      ufs = pre ++ uf :: post
      /\ baixar uf year month = Some df
      /\ processar_df df uf = Raise e
      /\ main_loop baixar year month pre st = (st', None).
Proof.
  induction ufs as [|uf rest IH]; intros st st' e H; [discriminate|].
  cbn [main_loop] in H.
  destruct (baixar uf year month) as [df|] eqn:B.
  - destruct (processar_df df uf) as [regs|e'] eqn:P.
    + apply IH in H as (pre & u & post & d & -> & Bu & Pu & L).
      exists (uf :: pre), u, post, d. repeat split; auto.
      cbn [main_loop]. now rewrite B, P.
    + injection H as <- <-. exists [], uf, rest, df. repeat split; auto.
  - apply IH in H as (pre & u & post & d & -> & Bu & Pu & L).
    exists (uf :: pre), u, post, d. repeat split; auto.
    cbn [main_loop]. now rewrite B.
Qed.

Lemma main_loop_completes (ufs : list string) :
  (forall uf df, In uf ufs -> baixar uf year month = Some df ->
                 exists regs, processar_df df uf = Ok regs) ->
  forall st, exists st', main_loop baixar year month ufs st = (st', None).
Proof.
  induction ufs as [|uf rest IH]; intros A st; [now exists st|].
  cbn [main_loop].
  assert (A' : forall u df, In u rest -> baixar u year month = Some df ->
                            exists regs, processar_df df u = Ok regs)
    by (intros u df I; apply A; now right).
  destruct (baixar uf year month) as [df|] eqn:B; [|now apply IH].
  destruct (A uf df (or_introl eq_refl) B) as [regs ->]. now apply IH.
Qed.

Lemma main_loop_raises (ufs : list string) :
  (exists uf df e, In uf ufs /\ baixar uf year month = Some df
                   /\ processar_df df uf = Raise e) ->
  forall st, exists st' e', main_loop baixar year month ufs st = (st', Some e').
Proof.
  induction ufs as [|uf rest IH]; intros (u & df & e & I & B & P) st; [destruct I|].
  cbn [main_loop].
  destruct (baixar uf year month) as [d|] eqn:Bu.
  - destruct (processar_df d uf) as [regs|e'] eqn:Pu; [|now exists st, e'].
    destruct I as [<-|I]; [rewrite Bu in B; injection B as <-; congruence|].
    apply IH. now exists u, df, e.
  - destruct I as [<-|I]; [congruence|].
    apply IH. now exists u, df, e.
Qed.

End MainFacts.

Lemma unique_labels_NoDup (l : list string) : unique_labels l = true -> NoDup l.
Proof.
  induction l as [|a l IH]; simpl; [constructor|].
  intros H. apply andb_true_iff in H as [H1 H2].
  constructor; [|now apply IH].
  now apply negb_true_iff, mem_false in H1.
Qed.

Lemma UFS_NoDup : NoDup UFS.
Proof. now apply unique_labels_NoDup. Qed.

Lemma UFS_not_meta (uf : string) :
  In uf UFS -> "_meta.json" <> (uf ++ ".json")%string.
Proof.
  assert (T : forallb (fun u => negb (String.eqb "_meta.json" (u ++ ".json"))) UFS
              = true) by reflexivity.
  rewrite forallb_forall in T. intros I E. specialize (T uf I).
  rewrite E, String.eqb_refl in T. discriminate T.
Qed.

Lemma main_concluido (baixar : string -> Z -> nat -> option DataFrame)
    (agora : PyDate.date) (carimbo : string) (dir0 d : Dir) (meta : Meta) :
  main baixar agora carimbo dir0 = Concluido d meta ->
  exists year month st,
    get_competencia agora = Some (year, month)
    /\ main_loop baixar year month UFS (mkEstado dir0 [] []) = (st, None)
    /\ meta = mkMeta carimbo (competencia_texto year month) (resumo st)
                (soma (resumo st)) (falhas st)
    /\ d = escrever (dir st) "_meta.json" (ArqMeta meta).
Proof.
  unfold main.
  destruct (get_competencia agora) as [[year month]|]; [|discriminate].
  destruct (main_loop baixar year month UFS _) as [st [e|]] eqn:L; [discriminate|].
  intros H. injection H as <- <-. exists year, month, st.
  split; [reflexivity|]. split; [exact L|]. split; reflexivity.
Qed.

(** X17.  When [main] completes, each region has been handled on its own.
    A region without frame keeps the file it had before the run, is listed
    among the failures and counts 0.  A region with a frame has its file
    replaced by the records of that frame, is not among the failures and
    counts their number.  No other file is touched except _meta.json,
    which holds the summary. *)
Theorem main_por_regiao (baixar : string -> Z -> nat -> option DataFrame)
    (agora : PyDate.date) (carimbo : string) (dir0 d : Dir) (meta : Meta) :
  main baixar agora carimbo dir0 = Concluido d meta ->
  exists year month,
    get_competencia agora = Some (year, month)
    /\ (forall uf, In uf UFS ->
        (baixar uf year month = None ->
         d (uf ++ ".json")%string = dir0 (uf ++ ".json")%string
         /\ In uf (meta_falhas meta) /\ In (uf, 0) (totais meta))
        /\ (forall df, baixar uf year month = Some df ->
            exists regs,
              processar_df df uf = Ok regs
              /\ d (uf ++ ".json")%string = Some (ArqRegistros regs)
              /\ ~ In uf (meta_falhas meta)
              /\ In (uf, length regs) (totais meta)))
    /\ (forall name,
        name <> "_meta.json" ->
        (forall uf, In uf UFS -> name <> (uf ++ ".json")%string) ->
        d name = dir0 name)
    /\ d "_meta.json" = Some (ArqMeta meta).
Proof.
  intros H. apply main_concluido in H as (year & month & st & G & L & -> & ->).
  exists year, month. split; [exact G|].
  apply (main_loop_done baixar year month UFS _ st UFS_NoDup) in L;
    [|intros u _ []].
  cbn [resumo falhas dir app] in L. destruct L as (R & F & D & O).
  cbn [meta_falhas totais].
  assert (W : forall uf, In uf UFS ->
              escrever (dir st) "_meta.json"
                (ArqMeta (mkMeta carimbo (competencia_texto year month) (resumo st)
                            (soma (resumo st)) (falhas st)))
                (uf ++ ".json")%string
              = dir st (uf ++ ".json")%string).
  { intros uf I. unfold escrever.
    destruct (String.eqb_spec (uf ++ ".json") "_meta.json") as [E|_]; [|reflexivity].
    exfalso. now apply (UFS_not_meta uf I). }
  split; [|split].
  - intros uf I. destruct (D uf I) as [D1 D2]. split.
    + intros B. rewrite (W uf I), (D1 B). split; [reflexivity|]. split.
      * rewrite F. apply filter_In. split; [exact I|].
        unfold sem_dados. now rewrite B.
      * rewrite R. apply in_map_iff. exists uf. split; [|exact I].
        unfold contagem. now rewrite B.
    + intros df B. destruct (D2 df B) as [regs [P E]].
      exists regs. split; [exact P|]. rewrite (W uf I). split; [exact E|]. split.
      * rewrite F. intros K. apply filter_In in K as [_ K].
        unfold sem_dados in K. rewrite B in K. discriminate K.
      * rewrite R. apply in_map_iff. exists uf. split; [|exact I].
        unfold contagem. now rewrite B, P.
  - intros name N1 N2. unfold escrever.
    destruct (String.eqb_spec name "_meta.json") as [E|_]; [contradiction|].
    now apply O.
  - unfold escrever. now rewrite String.eqb_refl.
Qed.

(** X18.  The summary that [main] writes lists the 27 regions in the order
    of UFS, each with its count; the grand total is the sum of the counts;
    the failures are the regions without frame, in the order of UFS; and
    the period is the text of the reference month. *)
Theorem main_resumo (baixar : string -> Z -> nat -> option DataFrame)
    (agora : PyDate.date) (carimbo : string) (dir0 d : Dir) (meta : Meta) :
  main baixar agora carimbo dir0 = Concluido d meta ->
  exists year month,
    get_competencia agora = Some (year, month)
    /\ totais meta = map (fun uf => (uf, contagem baixar year month uf)) UFS
    /\ total_geral meta = list_sum (map (contagem baixar year month) UFS)
    /\ meta_falhas meta = filter (sem_dados baixar year month) UFS
    /\ length (totais meta) = 27
    /\ competencia meta = competencia_texto year month
    /\ gerado_em meta = carimbo.
Proof.
  intros H. apply main_concluido in H as (year & month & st & G & L & -> & ->).
  exists year, month. split; [exact G|].
  apply (main_loop_done baixar year month UFS _ st UFS_NoDup) in L;
    [|intros u _ []].
  cbn [resumo falhas dir app] in L. destruct L as (R & F & _ & _).
  cbn [meta_falhas totais total_geral competencia gerado_em].
  rewrite soma_list_sum, R, F, map_map, length_map. cbn [snd].
  repeat split; reflexivity.
Qed.

(** X19.  Nothing in [main] catches an exception of [processar_df]: the
    run is cut short exactly when the frame of some region makes
    [processar_df] raise, and then _meta.json is not written.  A region
    without frame never cuts the run short. *)
Theorem main_interrompido (baixar : string -> Z -> nat -> option DataFrame)
    (agora : PyDate.date) (carimbo : string) (dir0 : Dir) (year : Z) (month : nat) :
  get_competencia agora = Some (year, month) ->
  ((exists d e, main baixar agora carimbo dir0 = Interrompido d e)
   <-> exists uf df e, In uf UFS /\ baixar uf year month = Some df
                       /\ processar_df df uf = Raise e)
  /\ (forall d e,
      main baixar agora carimbo dir0 = Interrompido d e ->
      d "_meta.json" = dir0 "_meta.json").
Proof.
  intros G. unfold main. rewrite G.
  destruct (main_loop baixar year month UFS (mkEstado dir0 [] []))
    as [st [e|]] eqn:L.
  - pose proof (main_loop_abort baixar year month UFS _ _ _ L)
      as (pre & uf & post & df & E & B & P & Lp).
    split.
    + split; [|intros _; now exists (dir st), e].
      intros _. exists uf, df, e. split; [|now split].
      rewrite E. apply in_or_app. right. now left.
    + intros d e' H. injection H as <- _.
      assert (ND : NoDup pre).
      { pose proof UFS_NoDup as N. rewrite E in N.
        now apply NoDup_app_remove_r in N. }
      apply (main_loop_done baixar year month pre _ st ND) in Lp; [|intros u _ []].
      destruct Lp as (_ & _ & _ & O). cbn [dir] in O. apply O.
      intros u I. apply UFS_not_meta. rewrite E. apply in_or_app. now left.
  - split; [|discriminate].
    split; [intros (d & e & H); discriminate|].
    intros H. destruct (main_loop_raises baixar year month UFS H (mkEstado dir0 [] []))
      as (st' & e' & K). rewrite L in K. discriminate K.
Qed.

(** X20.  When every frame that the retrieval hands over has distinct
    upper-cased labels and rows as long as its label list, [main]
    completes, however many regions come without frame. *)
Theorem main_conclui (baixar : string -> Z -> nat -> option DataFrame)
    (agora : PyDate.date) (carimbo : string) (dir0 : Dir) (year : Z) (month : nat) :
  get_competencia agora = Some (year, month) ->
  (forall uf df, In uf UFS -> baixar uf year month = Some df ->
                 frame_ok (upper_columns df) = true) ->
  exists d meta, main baixar agora carimbo dir0 = Concluido d meta.
Proof.
  intros G A. unfold main. rewrite G.
  destruct (main_loop_completes baixar year month UFS) with (st := mkEstado dir0 [] [])
    as [st L].
  - intros uf df I B. apply processar_df_total. now apply (A uf df).
  - rewrite L. eexists. eexists. reflexivity.
Qed.

(** ** Runs of the retrieval and of the orchestrator *)

Lemma download_uf_first_file_wins_witness :
  download_uf unit (Got tt) (fun _ _ _ => Got [tt; tt]) (fun _ => Got quadro_exemplo)
    Threw (fun _ _ _ => Threw) "RJ" 2025 1
  = Some quadro_exemplo.
Proof.
  apply (download_uf_first_file_wins unit (Got tt) (fun _ _ _ => Got [tt; tt])
           (fun _ => Got quadro_exemplo) Threw (fun _ _ _ => Threw)
           "RJ" 2025 1 tt [tt] quadro_exemplo eq_refl eq_refl eq_refl).
Defined.

Lemma download_uf_source_witness :
  download_uf unit (Got tt) (fun _ _ _ => Got [])
    (fun _ => Got quadro_exemplo) (Got tt)
    (fun _ y m => if (y =? 2024)%Z && (m =? 12) then Got (Some quadro_exemplo)
                  else Got None) "RJ" 2025 1
  = Some quadro_exemplo
  /\ empty quadro_exemplo = false.
Proof.
  split; [reflexivity|].
  destruct (download_uf_source unit (Got tt) (fun _ _ _ => Got [])
              (fun _ => Got quadro_exemplo) (Got tt)
              (fun _ y m => if (y =? 2024)%Z && (m =? 12)
                            then Got (Some quadro_exemplo) else Got None)
              "RJ" 2025 1 quadro_exemplo eq_refl)
    as [(f & fs & G & _)|[(_ & p & f & fs & _ & G & _)|[[_ E]|(p & _ & _ & E)]]];
    try discriminate G; exact E.
Defined.

Lemma download_uf_exception_abandons_new_witness :
  download_uf unit (Got tt) (fun _ y m => if m =? 1 then Threw else Got [tt])
    (fun _ => Got quadro_exemplo) (Got tt) (fun _ _ _ => Got None) "RJ" 2025 1
  = None.
Proof.
  destruct (download_uf_exception_abandons_new unit (Got tt)
              (fun _ y m => if m =? 1 then Threw else Got [tt])
              (fun _ => Got quadro_exemplo) (Got tt) (fun _ _ _ => Got None)
              "RJ" 2025 1 (or_intror (or_introl eq_refl))) as [E _].
  exact E.
Defined.

Lemma competencia_exemplo :
  get_competencia (PyDate.mkDate 2025 3 15) = Some (2025%Z, 1).
Proof. vm_compute. reflexivity. Qed.

Lemma main_exemplo_concluido :
  exists d meta,
    main baixar_exemplo (PyDate.mkDate 2025 3 15) "2025-03-15T12:00:00" dir_vazio
    = Concluido d meta.
Proof.
  unfold main. rewrite competencia_exemplo.
  destruct (main_loop baixar_exemplo 2025 1 UFS (mkEstado dir_vazio [] []))
    as [st [e|]] eqn:L.
  - vm_compute in L. discriminate L.
  - eexists. eexists. reflexivity.
Qed.

Lemma main_por_regiao_witness :
  exists d meta,
    main baixar_exemplo (PyDate.mkDate 2025 3 15) "2025-03-15T12:00:00" dir_vazio
    = Concluido d meta
    /\ d "RJ.json" = Some (ArqRegistros [registro_de "1" "UBS A" "" "02" "M" "" "" "" "" ""])
    /\ d "SP.json" = None.
Proof.
  destruct main_exemplo_concluido as (d & meta & E).
  exists d, meta. split; [exact E|].
  destruct (main_por_regiao baixar_exemplo (PyDate.mkDate 2025 3 15)
              "2025-03-15T12:00:00" dir_vazio d meta E)
    as (year & month & G & R & _ & _).
  split.
  - destruct (R "RJ") as [_ R2]; [simpl; tauto|].
    destruct (R2 quadro_exemplo eq_refl) as (regs & P & D & _).
    change (d "RJ.json") with (d ("RJ" ++ ".json")%string).
    rewrite D. vm_compute in P. injection P as <-. reflexivity.
  - destruct (R "SP") as [R1 _]; [simpl; tauto|].
    destruct (R1 eq_refl) as (D & _). exact D.
Defined.

Lemma main_resumo_witness :
  exists d meta,
    main baixar_exemplo (PyDate.mkDate 2025 3 15) "2025-03-15T12:00:00" dir_vazio
    = Concluido d meta
    /\ total_geral meta = 1 /\ length (meta_falhas meta) = 26
    /\ competencia meta = "2025-01".
Proof.
  destruct main_exemplo_concluido as (d & meta & E).
  exists d, meta. split; [exact E|].
  destruct (main_resumo baixar_exemplo (PyDate.mkDate 2025 3 15)
              "2025-03-15T12:00:00" dir_vazio d meta E)
    as (year & month & G & _ & T & F & _ & C & _).
  rewrite competencia_exemplo in G. injection G as <- <-.
  rewrite T, F, C. repeat split; vm_compute; reflexivity.
Defined.

Lemma main_interrompido_witness :
  get_competencia (PyDate.mkDate 2025 3 15) = Some (2025%Z, 1)
  /\ exists d e,
      main baixar_repetido (PyDate.mkDate 2025 3 15) "2025-03-15T12:00:00" dir_vazio
      = Interrompido d e.
Proof.
  split; [exact competencia_exemplo|].
  apply (main_interrompido baixar_repetido (PyDate.mkDate 2025 3 15)
           "2025-03-15T12:00:00" dir_vazio 2025 1 competencia_exemplo).
  exists "SP", quadro_repetido, ValueError. split; [simpl; tauto|].
  split; vm_compute; reflexivity.
Defined.

Lemma main_conclui_witness :
  get_competencia (PyDate.mkDate 2025 3 15) = Some (2025%Z, 1)
  /\ exists d meta,
      main baixar_exemplo (PyDate.mkDate 2025 3 15) "2025-03-15T12:00:00" dir_vazio
      = Concluido d meta.
Proof.
  split; [exact competencia_exemplo|].
  apply (main_conclui baixar_exemplo (PyDate.mkDate 2025 3 15)
           "2025-03-15T12:00:00" dir_vazio 2025 1 competencia_exemplo).
  intros uf df _. unfold baixar_exemplo.
  destruct (String.eqb uf "RJ"); [|discriminate].
  intros H. injection H as <-. reflexivity.
Defined.

(** ** Two edges of the formatting *)

(** X21.  A facility code shorter than 7 characters that starts with a
    plus or minus sign keeps the sign in front: the zeros of the padding
    go between the sign and the rest of the code. *)
Theorem cnes_com_sinal (row : Series) (r : Registro) (a : ascii) (rest : string) :
  processar_linha row = Ok (Some r) ->
  campo row COLS_CNES "" = Ok (String a rest) ->
  PyStr.is_sign a = true ->
  String.length rest < 6 ->
  cnes r = String a (PyStr.zeros (6 - String.length rest) ++ rest)
  /\ String.length (cnes r) = 7.
Proof.
  intros H Hc Sg L.
  apply processar_linha_some in H
    as (c & n & i & tp & g & l & nu & b & ce & te & H).
  destruct H as (Hc' & _ & _ & _ & _ & _ & _ & _ & _ & _ & _ & _ & ->).
  rewrite Hc in Hc'. injection Hc' as <-.
  unfold registro_de. cbn [cnes]. split.
  - unfold PyStr.zfill. cbn [String.length].
    destruct (Nat.leb_spec 7 (S (String.length rest))) as [K|_]; [lia|].
    rewrite Sg. cbn [Nat.sub]. reflexivity.
  - rewrite zfill_length. cbn [String.length]. lia.
Qed.

Lemma cnes_com_sinal_witness :
  processar_linha [("CNES", VInt (-12)); ("NO_FANTASIA", VStr "UBS A")]
  = Ok (Some (registro_de "-12" "UBS A" "" "02" "M" "" "" "" "" ""))
  /\ cnes (registro_de "-12" "UBS A" "" "02" "M" "" "" "" "" "") = "-000012".
Proof.
  split; [reflexivity|].
  apply (cnes_com_sinal [("CNES", VInt (-12)); ("NO_FANTASIA", VStr "UBS A")]
           (registro_de "-12" "UBS A" "" "02" "M" "" "" "" "" "")
           "-" "12" eq_refl eq_refl eq_refl).
  simpl. lia.
Defined.





Lemma processar_df_one_record_per_kept_row_witness :
  frame_ok (upper_columns quadro_exemplo) = true
  /\ exists os,
      Forall2 (fun row o => processar_linha row = Ok o)
        (iterrows (filtro_ativas (filtro_sus (upper_columns quadro_exemplo)))) os
      /\ processar_df quadro_exemplo "RJ" = Ok (emitidos os).
Proof.
  split; [reflexivity|].
  destruct (processar_df_one_record_per_kept_row quadro_exemplo "RJ" eq_refl)
    as (os & F & H & _).
  exists os. split; assumption.
Defined.

Lemma competencia_anterior_mes_witness :
  (1 <= 2025 <= 9999)%Z /\ 1 <= 1 <= 12
  /\ competencia_anterior 2025 1 = Some (2024%Z, 12).
Proof.
  split; [lia|]. split; [lia|].
  rewrite (proj1 (competencia_anterior_mes 2025 1)) by lia. reflexivity.
Defined.

Lemma filtros_comutam_witness :
  frame_ok (mkDataFrame ["CNES"; "TP_GESTAO"; "DT_DESATIVACAO"]
              [[VStr "1"; VStr "M"; VStr "20200101"];
               [VStr "2"; VStr "S"; VNull];
               [VStr "3"; VStr "E"; VStr "0"]]) = true
  /\ filtro_ativas
       (filtro_sus (mkDataFrame ["CNES"; "TP_GESTAO"; "DT_DESATIVACAO"]
                      [[VStr "1"; VStr "M"; VStr "20200101"];
                       [VStr "2"; VStr "S"; VNull];
                       [VStr "3"; VStr "E"; VStr "0"]]))
     = filtro_sus
         (filtro_ativas (mkDataFrame ["CNES"; "TP_GESTAO"; "DT_DESATIVACAO"]
                           [[VStr "1"; VStr "M"; VStr "20200101"];
                            [VStr "2"; VStr "S"; VNull];
                            [VStr "3"; VStr "E"; VStr "0"]])).
Proof.
  split; [reflexivity|].
  apply (filtros_comutam
           (mkDataFrame ["CNES"; "TP_GESTAO"; "DT_DESATIVACAO"]
              [[VStr "1"; VStr "M"; VStr "20200101"];
               [VStr "2"; VStr "S"; VNull];
               [VStr "3"; VStr "E"; VStr "0"]]) eq_refl).
Defined.
